(** * Portfolio backend (main.py): contact pipeline and catalog queries

    A shallow embedding of the request handlers of [main.py] and the
    properties of its catalog reads, its free-text search and its contact
    submission pipeline (validate, persist, schedule the notification). *)

From Stdlib Require Import String Ascii List Bool Arith ZArith Lia.
From Stdlib Require Import Numbers.DecimalString.
From Stdlib Require Import Permutation.
Import ListNotations.

Local Open Scope string_scope.
Local Open Scope list_scope.
Local Set Warnings "-register-all".

(** ** Python strings

    A [str] is a [string], one [ascii] for each of its characters, so that
    [len] is [String.length]. *)

Module PyStr.

(** [sub in s] on two [str] values: [sub] occurs in [s] as a contiguous
    run of characters. *)
Fixpoint str_in (sub s : string) : bool :=
  String.prefix sub s ||
  match s with
  | EmptyString => false
  | String _ s' => str_in sub s'
  end.

(** [str.lower] restricted to ASCII text: the letters A-Z go to a-z and
    every other character stays. The catalog of [main.py] is ASCII. *)
Definition ascii_lower_char (c : ascii) : ascii :=
  let n := nat_of_ascii c in
  if Nat.leb 65 n && Nat.leb n 90 then ascii_of_nat (n + 32) else c.

Fixpoint ascii_lower (s : string) : string :=
  match s with
  | EmptyString => EmptyString
  | String c s' => String (ascii_lower_char c) (ascii_lower s')
  end.

(** [str(n)] for an [int]. *)
Definition str_int (z : Z) : string := NilZero.string_of_int (Z.to_int z).

(** Truthiness of a [str]: only the empty string is falsy. *)
Definition truthy (s : string) : bool :=
  match s with EmptyString => false | String _ _ => true end.

(** [s.isspace() or s == ""]: nothing but white space. *)
Definition is_space_char (c : ascii) : bool :=
  let n := nat_of_ascii c in
  (Nat.leb 9 n && Nat.leb n 13) || (Nat.leb 28 n && Nat.leb n 32).

Fixpoint blank (s : string) : bool :=
  match s with
  | EmptyString => true
  | String c s' => is_space_char c && blank s'
  end.

End PyStr.
Import PyStr.

(** ** Data model: the dictionaries of the catalog

    A project also carries [created_at], the clock reading of the moment
    it was made; no handler reads it and it is left out. *)

Record Project := mkProject {
  p_id : string;
  p_title : string;
  p_category : string;
  p_description : string;
  p_tech : list string;
  p_github : string;
  p_demo : string;
  p_featured : bool
}.

(** [ProjectCreate]. *)
Record ProjectCreate := mkProjectCreate {
  pc_title : string;
  pc_category : string;
  pc_description : string;
  pc_tech : list string;
  pc_github : string;
  pc_demo : string;
  pc_featured : bool
}.

Record Skill := mkSkill {
  s_name : string;
  s_level : Z;
  s_category : string
}.

Record Experience := mkExperience {
  e_id : string;
  e_title : string;
  e_company : string;
  e_location : string;
  e_period : string;
  e_description : string;
  e_type : string;
  e_achievements : list string
}.

(** [ContactMessage]: a submission that passed validation. *)
Record ContactMessage := mkContactMessage {
  name : string;
  email : string;
  subject : string;
  message : string
}.

(** [ContactResponse]. *)
Record ContactResponse := mkContactResponse {
  success : bool;
  r_message : string;
  r_id : option string
}.

(** One entry of the [results] list of [search_content]. *)
Record SearchResult := mkSearchResult {
  sr_type : string;
  sr_title : string;
  sr_description : string;
  sr_url : string
}.

Record SearchResponse := mkSearchResponse {
  query : string;
  results : list SearchResult
}.

(** ** Library functions the program calls *)

(** What [main.py] takes from outside itself and uses as a pure function:
    [str.lower], which leaves the empty string empty, and the check behind
    pydantic's [EmailStr], which gives back the normalised address of a
    well-formed one. *)
Class Library := {
  lower : string -> string;
  validate_email : string -> option string;
  lower_empty : lower "" = ""
}.

(** ** Exceptions *)

Inductive exn :=
| HTTPException (status_code : nat) (detail : string)
| PyError (cls : string) (msg : string).

(** [str(e)]. *)
Definition exn_str (e : exn) : string :=
  match e with
  | HTTPException code detail => str_int (Z.of_nat code) ++ ": " ++ detail
  | PyError _ msg => msg
  end.

(** ** JSON values, as [json.load] returns them and [json.dump] takes them *)

Inductive json :=
| JNull
| JBool (b : bool)
| JInt (z : Z)
| JStr (s : string)
| JList (l : list json)
| JDict (kv : list (string * json)).

(** [d[k]] on the items of a dictionary. *)
Fixpoint dict_get (k : string) (kv : list (string * json)) : option json :=
  match kv with
  | [] => None
  | (k', v) :: kv' => if String.eqb k k' then Some v else dict_get k kv'
  end.

(** ** [datetime] and its ISO-8601 text *)

Record datetime := mkDatetime {
  year : N; month : N; day : N;
  hour : N; minute : N; second : N; microsecond : N
}.

Module ISO.
Local Open Scope N_scope.

Definition digit (n : N) : ascii := ascii_of_N (48 + n mod 10).

Definition pad2 (n : N) (k : string) : string :=
  String (digit (n / 10)) (String (digit n) k).

Definition pad4 (n : N) (k : string) : string :=
  pad2 (n / 100) (pad2 n k).

Definition pad6 (n : N) (k : string) : string :=
  pad2 (n / 10000) (pad4 n k).

(** [datetime.isoformat()]: [YYYY-MM-DDTHH:MM:SS.ffffff], and without the
    fraction when [microsecond] is 0. *)
Definition isoformat (d : datetime) : string :=
  pad4 (year d) (String "-" (pad2 (month d) (String "-" (pad2 (day d)
    (String "T" (pad2 (hour d) (String ":" (pad2 (minute d) (String ":"
      (pad2 (second d)
         (if microsecond d =? 0 then EmptyString
          else String "." (pad6 (microsecond d) EmptyString)))))))))))).

Definition undigit (c : ascii) : option N :=
  let n := N_of_ascii c in
  if (48 <=? n) && (n <=? 57) then Some (n - 48) else None.

(** Read [k] decimal digits off the front of [s], after the value [acc]. *)
Fixpoint digits (k : nat) (acc : N) (s : string) : option (N * string) :=
  match k with
  | O => Some (acc, s)
  | S k' =>
      match s with
      | EmptyString => None
      | String c s' =>
          match undigit c with
          | Some n => digits k' (10 * acc + n) s'
          | None => None
          end
      end
  end.

Definition expect (c : ascii) (s : string) : option string :=
  match s with
  | String c' s' => if Ascii.eqb c c' then Some s' else None
  | EmptyString => None
  end.

Definition leap (y : N) : bool :=
  ((y mod 4 =? 0) && negb (y mod 100 =? 0)) || (y mod 400 =? 0).

Definition days_in_month (y m : N) : N :=
  match m with
  | 2 => if leap y then 29 else 28
  | 4 | 6 | 9 | 11 => 30
  | _ => 31
  end.

(** The ranges [datetime] enforces on its fields. *)
Definition valid (d : datetime) : bool :=
  (1 <=? year d) && (year d <=? 9999) &&
  (1 <=? month d) && (month d <=? 12) &&
  (1 <=? day d) && (day d <=? days_in_month (year d) (month d)) &&
  (hour d <? 24) && (minute d <? 60) && (second d <? 60) &&
  (microsecond d <? 1000000).

Definition obind {A B} (o : option A) (f : A -> option B) : option B :=
  match o with Some a => f a | None => None end.

(** [datetime.fromisoformat] on the two shapes [isoformat] writes. *)
Definition fromisoformat (s : string) : option datetime :=
  obind (digits 4 0 s) (fun '(y, s) =>
  obind (expect "-" s) (fun s =>
  obind (digits 2 0 s) (fun '(mo, s) =>
  obind (expect "-" s) (fun s =>
  obind (digits 2 0 s) (fun '(d, s) =>
  obind (expect "T" s) (fun s =>
  obind (digits 2 0 s) (fun '(h, s) =>
  obind (expect ":" s) (fun s =>
  obind (digits 2 0 s) (fun '(mi, s) =>
  obind (expect ":" s) (fun s =>
  obind (digits 2 0 s) (fun '(se, s) =>
  obind (match s with
         | EmptyString => Some 0
         | String "." s' =>
             obind (digits 6 0 s') (fun '(us, rest) =>
             match rest with EmptyString => Some us | _ => None end)
         | _ => None
         end) (fun us =>
  let d := mkDatetime y mo d h mi se us in
  if valid d then Some d else None)))))))))))).

(** Comparison of two (naive) [datetime] values, field by field. *)
Fixpoint lex_leb (a b : list N) : bool :=
  match a, b with
  | x :: a', y :: b' => (x <? y) || ((x =? y) && lex_leb a' b')
  | _, _ => true
  end.

Definition fields (d : datetime) : list N :=
  [year d; month d; day d; hour d; minute d; second d; microsecond d].

Definition leb (a b : datetime) : bool := lex_leb (fields a) (fields b).

End ISO.

(** ** The world the handlers run in *)

(** [contact_messages.json] as [json.load] finds it: absent, holding text
    that is no JSON document (also an empty or half-written file), or
    holding a JSON value. *)
Inductive File :=
| NoFile
| Corrupt
| Stored (j : json).

(** The calls [send_email] makes, in program order: building the MIME
    message, [smtplib.SMTP(...)], [starttls], [login], [send_message],
    [quit]. *)
Inductive SmtpStep := Build | Connect | StartTLS | Login | Send | Quit.

Record Email := mkEmail {
  From : string;
  To : string;
  Subject : string;
  body : string
}.

Inductive LogLevel := INFO | ERROR.

(** A task registered with [BackgroundTasks.add_task]. *)
Inductive Task :=
| Task_send_email (contact_data : ContactMessage).

(** What the program reads and never assigns: the module constants no
    handler mutates, the configuration, the sources of identifiers and clock
    readings (indexed by the number of earlier draws), and the faults the
    operating system and the mail relay answer with. *)
Record Env := mkEnv {
  SKILLS_DATA : list Skill;
  EXPERIENCES_DATA : list Experience;
  PERSONAL_INFO_email : string;
  EMAIL_CONFIG_email : string;
  EMAIL_CONFIG_password : string;
  uuid4 : nat -> string;
  datetime_now : nat -> datetime;
  open_read_fault : option exn;
  open_write_fault : option exn;
  dump_fault : option exn;
  smtp_fault : SmtpStep -> option exn
}.

(** What the program changes. *)
Record State := mkState {
  PROJECTS_DATA : list Project;
  messages_file : File;
  uuid_drawn : nat;
  clock_read : nat;
  logged : list (LogLevel * string);
  smtp_trace : list SmtpStep;
  outbox : list Email
}.

Definition set_PROJECTS_DATA (l : list Project) (st : State) : State :=
  mkState l (messages_file st) (uuid_drawn st) (clock_read st)
          (logged st) (smtp_trace st) (outbox st).

Definition set_messages_file (f : File) (st : State) : State :=
  mkState (PROJECTS_DATA st) f (uuid_drawn st) (clock_read st)
          (logged st) (smtp_trace st) (outbox st).

Definition set_uuid_drawn (n : nat) (st : State) : State :=
  mkState (PROJECTS_DATA st) (messages_file st) n (clock_read st)
          (logged st) (smtp_trace st) (outbox st).

Definition set_clock_read (n : nat) (st : State) : State :=
  mkState (PROJECTS_DATA st) (messages_file st) (uuid_drawn st) n
          (logged st) (smtp_trace st) (outbox st).

Definition set_logged (l : list (LogLevel * string)) (st : State) : State :=
  mkState (PROJECTS_DATA st) (messages_file st) (uuid_drawn st) (clock_read st)
          l (smtp_trace st) (outbox st).

Definition set_smtp_trace (t : list SmtpStep) (st : State) : State :=
  mkState (PROJECTS_DATA st) (messages_file st) (uuid_drawn st) (clock_read st)
          (logged st) t (outbox st).

Definition set_outbox (o : list Email) (st : State) : State :=
  mkState (PROJECTS_DATA st) (messages_file st) (uuid_drawn st) (clock_read st)
          (logged st) (smtp_trace st) o.

(** ** Computations that may raise *)

Inductive outcome (A : Type) :=
| Return (a : A)
| Raise (e : exn).
Arguments Return {A} a.
Arguments Raise {A} e.

Definition Py (A : Type) : Type := Env -> State -> outcome A * State.

Definition ret {A} (a : A) : Py A := fun _ st => (Return a, st).

Definition raise {A} (e : exn) : Py A := fun _ st => (Raise e, st).

Definition bind {A B} (c : Py A) (k : A -> Py B) : Py B :=
  fun env st =>
    match c env st with
    | (Return a, st') => k a env st'
    | (Raise e, st') => (Raise e, st')
    end.

(** [try: body except Exception as e: handler]. *)
Definition try_except {A} (body : Py A) (handler : exn -> Py A) : Py A :=
  fun env st =>
    match body env st with
    | (Return a, st') => (Return a, st')
    | (Raise e, st') => handler e env st'
    end.

Definition ask : Py Env := fun env st => (Return env, st).
Definition get : Py State := fun _ st => (Return st, st).
Definition modify (f : State -> State) : Py unit := fun _ st => (Return tt, f st).

Declare Scope py_scope.
Delimit Scope py_scope with py.
Notation "x <- c ;; k" := (bind c (fun x => k))
  (at level 61, c at next level, right associativity) : py_scope.
Notation "c ;;; k" := (bind c (fun _ => k))
  (at level 61, right associativity) : py_scope.
Local Open Scope py_scope.

(** *** The primitives of the run time *)

Definition logger_info (msg : string) : Py unit :=
  modify (fun st => set_logged (logged st ++ [(INFO, msg)]) st).

Definition logger_error (msg : string) : Py unit :=
  modify (fun st => set_logged (logged st ++ [(ERROR, msg)]) st).

(** [str(uuid.uuid4())]. *)
Definition str_uuid4 : Py string :=
  env <- ask ;; st <- get ;;
  modify (set_uuid_drawn (S (uuid_drawn st))) ;;;
  ret (uuid4 env (uuid_drawn st)).

(** [datetime.now()]. *)
Definition now : Py datetime :=
  env <- ask ;; st <- get ;;
  modify (set_clock_read (S (clock_read st))) ;;;
  ret (datetime_now env (clock_read st)).

(** [messages_file.exists()]. *)
Definition exists_ : Py bool :=
  st <- get ;;
  ret (match messages_file st with NoFile => false | _ => true end).

(** [with open(messages_file, 'r') as f: json.load(f)]. *)
Definition open_r_json_load : Py json :=
  env <- ask ;; st <- get ;;
  match open_read_fault env with
  | Some e => raise e
  | None =>
      match messages_file st with
      | NoFile => raise (PyError "FileNotFoundError" "contact_messages.json")
      | Corrupt => raise (PyError "JSONDecodeError" "Expecting value")
      | Stored j => ret j
      end
  end.

(** [with open(messages_file, 'w') as f: json.dump(messages, f, indent=2)]:
    opening for writing empties the file before anything is written. *)
Definition open_w_json_dump (messages : json) : Py unit :=
  env <- ask ;;
  match open_write_fault env with
  | Some e => raise e
  | None =>
      match dump_fault env with
      | Some e => modify (set_messages_file Corrupt) ;;; raise e
      | None => modify (set_messages_file (Stored messages))
      end
  end.

(** [messages.append(x)]: only a list has the method. *)
Definition append (messages x : json) : Py json :=
  match messages with
  | JList l => ret (JList (l ++ [x]))
  | _ => raise (PyError "AttributeError" "object has no attribute 'append'")
  end.

(** One call on the mail relay (or the message under construction). *)
Definition smtp (s : SmtpStep) : Py unit :=
  env <- ask ;;
  modify (fun st => set_smtp_trace (smtp_trace st ++ [s]) st) ;;;
  match smtp_fault env s with
  | Some e => raise e
  | None => ret tt
  end.

(** ** The handlers of [main.py] *)

Section Handlers.
Context {L : Library}.

(** *** Catalog reads *)

(** [get_projects(featured)]. *)
Definition get_projects (featured : option bool) : Py (list Project) :=
  st <- get ;;
  let projects := PROJECTS_DATA st in
  let projects :=
    match featured with
    | Some featured => filter (fun p => Bool.eqb (p_featured p) featured) projects
    | None => projects
    end in
  ret projects.

(** [get_project(project_id)]: [next(..., None)] takes the first match. *)
Definition get_project (project_id : string) : Py Project :=
  st <- get ;;
  let project := find (fun p => String.eqb (p_id p) project_id) (PROJECTS_DATA st) in
  match project with
  | None => raise (HTTPException 404 "Project not found")
  | Some project => ret project
  end.

(** [create_project(project)]: the new dictionary is appended to
    [PROJECTS_DATA]. *)
Definition create_project (project : ProjectCreate) : Py Project :=
  id <- str_uuid4 ;;
  created_at <- now ;;
  let new_project :=
    mkProject id (pc_title project) (pc_category project) (pc_description project)
              (pc_tech project) (pc_github project) (pc_demo project)
              (pc_featured project) in
  modify (fun st => set_PROJECTS_DATA (PROJECTS_DATA st ++ [new_project]) st) ;;;
  ret new_project.

(** [get_skills(category)]: [if category:] is false for [None] and for
    the empty string. *)
Definition get_skills (category : option string) : Py (list Skill) :=
  env <- ask ;;
  let skills := SKILLS_DATA env in
  let skills :=
    match category with
    | Some category =>
        if truthy category
        then filter (fun s => String.eqb (lower (s_category s)) (lower category)) skills
        else skills
    | None => skills
    end in
  ret skills.

(** [get_experiences(type)]. *)
Definition get_experiences (type : option string) : Py (list Experience) :=
  env <- ask ;;
  let experiences := EXPERIENCES_DATA env in
  let experiences :=
    match type with
    | Some type =>
        if truthy type
        then filter (fun e => String.eqb (lower (e_type e)) (lower type)) experiences
        else experiences
    | None => experiences
    end in
  ret experiences.

(** [get_experience(experience_id)]. *)
Definition get_experience (experience_id : string) : Py Experience :=
  env <- ask ;;
  let experience :=
    find (fun e => String.eqb (e_id e) experience_id) (EXPERIENCES_DATA env) in
  match experience with
  | None => raise (HTTPException 404 "Experience not found")
  | Some experience => ret experience
  end.

(** *** Search *)

(** The test of the first loop of [search_content]. *)
Definition project_hit (q : string) (project : Project) : bool :=
  str_in (lower q) (lower (p_title project)) ||
  str_in (lower q) (lower (p_description project)) ||
  existsb (fun tech => str_in (lower q) (lower tech)) (p_tech project).

(** The test of the second loop. *)
Definition skill_hit (q : string) (skill : Skill) : bool :=
  str_in (lower q) (lower (s_name skill)).

Definition project_result (project : Project) : SearchResult :=
  mkSearchResult "project" (p_title project) (p_description project)
                 ("/api/projects/" ++ p_id project).

Definition skill_result (skill : Skill) : SearchResult :=
  mkSearchResult "skill" (s_name skill)
                 (s_category skill ++ " - " ++ str_int (s_level skill) ++ "%")
                 "/api/skills".

(** [search_content(q, category)]: two [for] loops appending to [results]. *)
Definition search_content (q : string) (category : option string)
  : Py SearchResponse :=
  env <- ask ;; st <- get ;;
  let results := [] in
  let results :=
    fold_left (fun results project =>
                 if project_hit q project
                 then results ++ [project_result project]
                 else results)
              (PROJECTS_DATA st) results in
  let results :=
    fold_left (fun results skill =>
                 if skill_hit q skill
                 then results ++ [skill_result skill]
                 else results)
              (SKILLS_DATA env) results in
  ret (mkSearchResponse q results).

(** *** The record store *)

(** The dictionary [message_data]. *)
Definition message_data_of (id : string) (contact_data : ContactMessage)
           (timestamp : string) : json :=
  JDict [("id", JStr id);
         ("name", JStr (name contact_data));
         ("email", JStr (email contact_data));
         ("subject", JStr (subject contact_data));
         ("message", JStr (message contact_data));
         ("timestamp", JStr timestamp)].

(** The [try] block of [save_contact_message]. *)
Definition save_contact_message_try (contact_data : ContactMessage) : Py string :=
  let messages := JList [] in
  present <- exists_ ;;
  messages <- (if present then open_r_json_load else ret messages) ;;
  id <- str_uuid4 ;;
  t <- now ;;
  let message_data := message_data_of id contact_data (ISO.isoformat t) in
  messages <- append messages message_data ;;
  open_w_json_dump messages ;;;
  ret id.

(** [save_contact_message(contact_data)]: the identifier, or [None]. *)
Definition save_contact_message (contact_data : ContactMessage)
  : Py (option string) :=
  try_except
    (id <- save_contact_message_try contact_data ;; ret (Some id))
    (fun e =>
       logger_error ("Failed to save contact message: " ++ exn_str e) ;;;
       ret None).

(** *** The notifier *)

Definition nl : string := String (ascii_of_nat 10) EmptyString.
Definition indent : string := "        ".

(** The f-string [body] of [send_email]. *)
Definition email_body (contact_data : ContactMessage) : string :=
  nl ++ indent ++ "New contact form submission:" ++ nl
     ++ indent ++ nl
     ++ indent ++ "Name: " ++ name contact_data ++ nl
     ++ indent ++ "Email: " ++ email contact_data ++ nl
     ++ indent ++ "Subject: " ++ subject contact_data ++ nl
     ++ indent ++ nl
     ++ indent ++ "Message:" ++ nl
     ++ indent ++ message contact_data ++ nl
     ++ indent ++ nl
     ++ indent ++ "---" ++ nl
     ++ indent ++ "Sent from Portfolio API" ++ nl
     ++ indent.

(** The [try] block of [send_email]. *)
Definition send_email_try (contact_data : ContactMessage) : Py bool :=
  env <- ask ;;
  smtp Build ;;;
  let msg := mkEmail (EMAIL_CONFIG_email env) (PERSONAL_INFO_email env)
                     ("Portfolio Contact: " ++ subject contact_data)
                     (email_body contact_data) in
  smtp Connect ;;;
  smtp StartTLS ;;;
  smtp Login ;;;
  smtp Send ;;;
  modify (fun st => set_outbox (outbox st ++ [msg]) st) ;;;
  smtp Quit ;;;
  logger_info ("Email sent successfully for contact from " ++ name contact_data) ;;;
  ret true.

(** [send_email(contact_data)]. *)
Definition send_email (contact_data : ContactMessage) : Py bool :=
  try_except
    (send_email_try contact_data)
    (fun e => logger_error ("Failed to send email: " ++ exn_str e) ;;; ret false).

(** *** The submission pipeline *)

Definition thanks : string :=
  "Thank you for your message! I'll get back to you soon.".

(** [submit_contact(contact, background_tasks)]: the response and the
    task list as [add_task] leaves it. *)
Definition submit_contact (contact : ContactMessage) (background_tasks : list Task)
  : Py (ContactResponse * list Task) :=
  try_except
    (message_id <- save_contact_message contact ;;
     let background_tasks := background_tasks ++ [Task_send_email contact] in
     ret (mkContactResponse true thanks message_id, background_tasks))
    (fun e =>
       logger_error ("Error processing contact form: " ++ exn_str e) ;;;
       raise (HTTPException 500 "Failed to process contact form. Please try again.")).

(** The body of [POST /api/contact] before validation. *)
Record RawContact := mkRawContact {
  raw_name : string;
  raw_email : string;
  raw_subject : string;
  raw_message : string
}.

Definition length_between (lo hi : nat) (s : string) : bool :=
  Nat.leb lo (String.length s) && Nat.leb (String.length s) hi.

(** The constraints of [class ContactMessage]: the fields that fail
    them, or the validated message. *)
Definition ContactMessage_validate (raw : RawContact)
  : ContactMessage + list string :=
  let errors :=
    (if length_between 2 100 (raw_name raw) then [] else ["name"]) ++
    (match validate_email (raw_email raw) with Some _ => [] | None => ["email"] end) ++
    (if length_between 5 200 (raw_subject raw) then [] else ["subject"]) ++
    (if length_between 10 1000 (raw_message raw) then [] else ["message"]) in
  match errors, validate_email (raw_email raw) with
  | [], Some email =>
      inl (mkContactMessage (raw_name raw) email (raw_subject raw) (raw_message raw))
  | _, _ => inr errors
  end.

Inductive HttpReply :=
| Reply200 (r : ContactResponse)
| Reply422 (fields : list string)
| ReplyError (status_code : nat) (detail : string).

(** The route [POST /api/contact]: the body is validated against
    [ContactMessage] before [submit_contact] is entered with a fresh
    [BackgroundTasks]; the tasks go with a returned response only. *)
Definition post_api_contact (raw : RawContact) (env : Env) (st : State)
  : HttpReply * list Task * State :=
  match ContactMessage_validate raw with
  | inr errors => (Reply422 errors, [], st)
  | inl contact =>
      match submit_contact contact [] env st with
      | (Return (r, background_tasks), st') => (Reply200 r, background_tasks, st')
      | (Raise (HTTPException code detail), st') => (ReplyError code detail, [], st')
      | (Raise (PyError _ _), st') => (ReplyError 500 "Internal Server Error", [], st')
      end
  end.

(** The background tasks run one after another once the response is
    out; what a task returns is dropped, and a task that raises ends the
    run. *)
Fixpoint run_tasks (tasks : list Task) : Py unit :=
  match tasks with
  | [] => ret tt
  | Task_send_email contact_data :: tasks' =>
      send_email contact_data ;;; run_tasks tasks'
  end.

(** One request to [POST /api/contact] from body to the end of its
    background tasks: the reply the client got and the state left. *)
Definition serve_contact (raw : RawContact) (env : Env) (st : State)
  : HttpReply * State :=
  let '(reply, tasks, st') := post_api_contact raw env st in
  (reply, snd (run_tasks tasks env st')).

End Handlers.

(** ** The catalog as [main.py] defines it at import *)

Module Fixture.
Definition PROJECTS_DATA : list Project :=
  [mkProject "1" "Amazon Clone"
     "E-commerce Platform"
     "Full-featured e-commerce platform with shopping cart, payment integration, and user authentication. Built with modern JavaScript and responsive design principles."
     ["JavaScript"; "HTML5"; "CSS3"; "LocalStorage"; "Responsive Design"]
     "https://github.com/ArunDev-07"
     "https://arun-amazon-clone.netlify.app" true;
   mkProject "2" "Movie Discovery App"
     "Entertainment Platform"
     "Interactive movie discovery application with TMDB API integration, search functionality, and detailed movie information with trailers."
     ["React JS"; "TMDB API"; "Tailwind CSS"; "React Router"; "Axios"]
     "https://github.com/ArunDev-07/Movie-App.git"
     "https://arun-movie-app.netlify.app" true;
   mkProject "3" "Weather Forecast App"
     "Weather Service"
     "Real-time weather application with location-based forecasting, 5-day predictions, and interactive weather maps."
     ["React JS"; "OpenWeather API"; "Geolocation API"; "Chart.js"]
     "https://github.com/ArunDev-07/Weather-App"
     "https://arun-weather-app.netlify.app" false;
   mkProject "4" "Currency Converter"
     "Financial Tool"
     "Real-time currency conversion application with historical data, multiple currencies, and exchange rate trends."
     ["React JS"; "Exchange Rate API"; "Chart.js"; "Material-UI"]
     "https://github.com/ArunDev-07/Currency-Converter"
     "https://arun-currency-converter.netlify.app" false;
   mkProject "5" "CRUD Task Manager"
     "Data Management"
     "Complete task management application with CRUD operations, filtering, sorting, and data persistence."
     ["React JS"; "Context API"; "LocalStorage"; "React Hooks"]
     "https://github.com/ArunDev-07/CRUD-App"
     "https://arun-task-manager.netlify.app" false].

Definition SKILLS_DATA : list Skill :=
  [mkSkill "React JS" 90 "Frontend";
   mkSkill "JavaScript" 85 "Frontend";
   mkSkill "HTML" 95 "Frontend";
   mkSkill "CSS" 92 "Frontend";
   mkSkill "TypeScript" 75 "Frontend";
   mkSkill "Tailwind CSS" 88 "Frontend";
   mkSkill "Python" 82 "Backend";
   mkSkill "FastAPI" 78 "Backend";
   mkSkill "MySQL" 80 "Database";
   mkSkill "Git/GitHub" 85 "Tools"].

Definition EXPERIENCES_DATA : list Experience :=
  [mkExperience "1" "Full Stack Developer Intern" "VDart" "Trichy, Tamil Nadu" "2024 - Present"
     "Working as a Full Stack Developer, building scalable web applications using React.js and modern web technologies. Collaborating with cross-functional teams to deliver high-quality solutions."
     "internship"
     ["Developed responsive web applications using React JS";
      "Implemented RESTful APIs with Python backend";
      "Collaborated with design team for UI/UX improvements";
      "Participated in code reviews and agile development"];
   mkExperience "2" "Web Development Intern" "Learnflu" "Online" "2024"
     "Worked with React JS and API integrations. Assisted in developing cross-platform websites and gained hands-on experience with modern web development practices."
     "internship"
     ["Built cross-platform websites using React JS";
      "Integrated third-party APIs for enhanced functionality";
      "Optimized website performance and user experience";
      "Collaborated with remote development team"];
   mkExperience "3" "Generative AI Workshop" "Tech Conference" "Bangalore" "2025"
     "Participated in intensive workshop on Generative AI, learning to create chatbots using cutting-edge AI technologies and machine learning frameworks."
     "workshop"
     ["Learned chatbot development using Generative AI";
      "Implemented AI-powered conversation systems";
      "Studied machine learning frameworks";
      "Networked with AI professionals"]].

Definition PERSONAL_INFO_email : string := "arunaakash675@gmail.com".

End Fixture.

(** ** An ASCII library and a quiet world, for running the handlers *)

Module Sample.

(** First occurrence of [c]: what is before it and what is after. *)
Fixpoint split_at (c : ascii) (s : string) : option (string * string) :=
  match s with
  | EmptyString => None
  | String c' s' =>
      if Ascii.eqb c c' then Some (EmptyString, s')
      else match split_at c s' with
           | Some (a, b) => Some (String c' a, b)
           | None => None
           end
  end.

(** A plain check of the shape [local@domain.tld], standing in for the
    e-mail validator where an example needs one. *)
Definition plain_email (s : string) : option string :=
  match split_at "@" s with
  | Some (local, domain) =>
      if truthy local && str_in "." domain && negb (str_in "@" domain)
      then Some (local ++ "@" ++ ascii_lower domain)%string
      else None
  | None => None
  end.

#[export] Instance ascii_library : Library :=
  {| lower := ascii_lower; validate_email := plain_email; lower_empty := eq_refl |}.

Definition uuid_of (n : nat) : string :=
  "00000000-0000-4000-8000-" ++ ISO.pad6 (N.of_nat n / 1000000) (ISO.pad6 (N.of_nat n) "").

Definition clock_of (n : nat) : datetime :=
  mkDatetime 2025 1 15 10 30 0 (N.min (N.of_nat n) 999999).

Definition no_fault : SmtpStep -> option exn := fun _ => None.

Definition env0 : Env :=
  mkEnv Fixture.SKILLS_DATA Fixture.EXPERIENCES_DATA Fixture.PERSONAL_INFO_email
        "your-email@gmail.com" "your-app-password"
        uuid_of clock_of None None None no_fault.

Definition st0 : State :=
  mkState Fixture.PROJECTS_DATA NoFile 0 0 [] [] [].

Definition alice : ContactMessage :=
  mkContactMessage "Alice" "alice@example.com" "Hello there" "I would like to talk.".

(** The record file holding text that is no JSON document. *)
Definition st_corrupt : State := set_messages_file Corrupt st0.

(** The record file holding one earlier record. *)
Definition bob : json :=
  JDict [("id", JStr (uuid_of 0)); ("name", JStr "Bob")].

Definition st_one : State :=
  mkState Fixture.PROJECTS_DATA (Stored (JList [bob])) 1 1 [] [] [].

(** A relay that refuses the login. *)
(** The record file holding a JSON object where the list should be. *)
Definition st_dict : State := set_messages_file (Stored (JDict [])) st0.

(** A wall clock set back between its first and its second reading, as
    naive local time is when daylight saving ends. *)
Definition clock_back (n : nat) : datetime :=
  match n with
  | O => mkDatetime 2025 10 26 2 30 0 0
  | S _ => mkDatetime 2025 10 26 2 0 0 (N.min (N.of_nat n) 999999)
  end.

Definition env_back : Env :=
  mkEnv Fixture.SKILLS_DATA Fixture.EXPERIENCES_DATA Fixture.PERSONAL_INFO_email
        "your-email@gmail.com" "your-app-password"
        uuid_of clock_back None None None no_fault.

Definition login_refused : SmtpStep -> option exn :=
  fun s => match s with
           | Login => Some (PyError "SMTPAuthenticationError" "535 bad credentials")
           | _ => None
           end.

Definition raw_alice : RawContact :=
  mkRawContact "Alice" "alice@Example.com" "Hello there" "I would like to talk.".

End Sample.

(** ** The words of the specification *)

Section SpecWords.
Context {L : Library}.

(** [q] is a case-insensitive substring of [s]. *)
Definition ci_substring (q s : string) : Prop :=
  exists before after, lower s = (before ++ lower q ++ after)%string.

(** [a] equals [b] case-insensitively. *)
Definition ci_equal (a b : string) : Prop := lower a = lower b.

(** The same, as a test. *)
Definition ci_equalb (a b : string) : bool := String.eqb (lower a) (lower b).

(** A project matches when the query is a case-insensitive substring of
    the title, the description, or some technology tag. *)
Definition project_matches (q : string) (p : Project) : Prop :=
  ci_substring q (p_title p) \/ ci_substring q (p_description p) \/
  exists tech, In tech (p_tech p) /\ ci_substring q tech.

(** A skill matches when the query is a case-insensitive substring of
    its name. *)
Definition skill_matches (q : string) (s : Skill) : Prop :=
  ci_substring q (s_name s).

(** A submission breaks a shape constraint: name length outside
    [2,100], a malformed e-mail address, subject length outside [5,200],
    or message length outside [10,1000]. *)
Definition violates (raw : RawContact) : Prop :=
  ~ (2 <= String.length (raw_name raw) <= 100) \/
  validate_email (raw_email raw) = None \/
  ~ (5 <= String.length (raw_subject raw) <= 200) \/
  ~ (10 <= String.length (raw_message raw) <= 1000).

End SpecWords.

(** The state after [save_contact_message] logged the exception of its
    [try] block. *)
Definition save_failed (e : exn) (st : State) : State :=
  set_logged (logged st ++ [(ERROR, "Failed to save contact message: " ++ exn_str e)%string]) st.

(** The calls of [send_email] in program order. *)
Definition smtp_program : list SmtpStep :=
  [Build; Connect; StartTLS; Login; Send; Quit].

(** A stored record carries the four fields of [contact_data]. *)
Definition record_of (record : list (string * json)) (contact_data : ContactMessage)
  : Prop :=
  dict_get "name" record = Some (JStr (name contact_data)) /\
  dict_get "email" record = Some (JStr (email contact_data)) /\
  dict_get "subject" record = Some (JStr (subject contact_data)) /\
  dict_get "message" record = Some (JStr (message contact_data)).

(** Clock readings never go back. *)
Definition monotone (clock : nat -> datetime) : Prop :=
  forall i j, i <= j -> ISO.leb (clock i) (clock j) = true.

(** [env] with the mail relay answering as [f] says. *)
Definition with_smtp_fault (f : SmtpStep -> option exn) (env : Env) : Env :=
  mkEnv (SKILLS_DATA env) (EXPERIENCES_DATA env) (PERSONAL_INFO_email env)
        (EMAIL_CONFIG_email env) (EMAIL_CONFIG_password env)
        (uuid4 env) (datetime_now env)
        (open_read_fault env) (open_write_fault env) (dump_fault env) f.

(** [with open(messages_file, 'r') as f: json.load(f)], as a reader of the
    record store would run it. *)
Definition read_store : Py json := open_r_json_load.

(** ** The remaining catalog handler and successive submissions *)

(** The order in which [list(set(...))] hands out the distinct elements is
    the interpreter's; whatever it is, each element comes once. *)
Class SetOrder := {
  list_set : list string -> list string;
  list_set_NoDup : forall l, NoDup (list_set l);
  list_set_In : forall l x, In x (list_set l) <-> In x l
}.

(** [get_skill_categories()]: the list under the key [categories]. *)
Definition get_skill_categories {O : SetOrder} : Py (list string) :=
  env <- ask ;;
  let categories := list_set (map s_category (SKILLS_DATA env)) in
  ret categories.

(** The distinct elements in the order of their last occurrence, one
    order a set may have. *)
#[export] Instance last_seen_order : SetOrder :=
  {| list_set := nodup string_dec;
     list_set_NoDup := NoDup_nodup string_dec;
     list_set_In := fun l x => nodup_In string_dec l x |}.

(** [save_contact_message] called for one submission after another: what
    each call returned. *)
Fixpoint save_each {L : Library} (submissions : list ContactMessage)
  : Py (list (option string)) :=
  match submissions with
  | [] => ret []
  | contact_data :: rest =>
      message_id <- save_contact_message contact_data ;;
      message_ids <- save_each rest ;;
      ret (message_id :: message_ids)
  end.

(** The records of [submissions] when the [n]-th identifier and the
    [m]-th clock reading are the next to be drawn. *)
Fixpoint records_from (env : Env) (n m : nat) (submissions : list ContactMessage)
  : list json :=
  match submissions with
  | [] => []
  | contact_data :: rest =>
      message_data_of (uuid4 env n) contact_data
                      (ISO.isoformat (datetime_now env m))
      :: records_from env (S n) (S m) rest
  end.

(** The list [save_contact_message] starts from: empty when the file is
    absent, the stored list when the file holds one. *)
Definition prior_list (f : File) : option (list json) :=
  match f with
  | NoFile => Some []
  | Stored (JList l) => Some l
  | _ => None
  end.

(** The message [send_email] hands to the relay. *)
Definition notification (env : Env) (contact_data : ContactMessage) : Email :=
  mkEmail (EMAIL_CONFIG_email env) (PERSONAL_INFO_email env)
          ("Portfolio Contact: " ++ subject contact_data)
          (email_body contact_data).

(** * Properties *)

Import Sample.

(** ** Strings *)

Lemma prefix_iff (sub s : string) :
  String.prefix sub s = true <-> exists after, s = (sub ++ after)%string.
Proof.
  revert s. induction sub as [|a sub IH]; intros s.
  - split; [intros _; exists s; reflexivity | intros _; destruct s; reflexivity].
  - destruct s as [|b s]; simpl.
    + split; [discriminate | intros [after H]; discriminate].
    + destruct (ascii_dec a b) as [->|Hne].
      * rewrite IH. split; intros [after H]; exists after.
        -- now rewrite H.
        -- now inversion H.
      * split; [discriminate | intros [after H]; inversion H; congruence].
Qed.

(** The [in] of two strings holds exactly of the contiguous occurrences. *)
Lemma str_in_iff (sub s : string) :
  str_in sub s = true <->
  exists before after, s = (before ++ sub ++ after)%string.
Proof.
  induction s as [|c s IH]; cbn [str_in].
  - rewrite orb_false_r, prefix_iff. split.
    + intros [after H]. exists EmptyString, after. exact H.
    + intros [before [after H]]. destruct before; simpl in H.
      * now exists after.
      * discriminate.
  - rewrite orb_true_iff, prefix_iff, IH. split.
    + intros [[after H] | [before [after H]]].
      * exists EmptyString, after. exact H.
      * exists (String c before), after. simpl. now rewrite H.
    + intros [before [after H]]. destruct before as [|c' before]; simpl in H.
      * left. now exists after.
      * right. inversion H. now exists before, after.
Qed.

Lemma str_in_empty (s : string) : str_in "" s = true.
Proof. destruct s; reflexivity. Qed.

Lemma truthy_iff (s : string) : truthy s = true <-> s <> "".
Proof. destruct s; simpl; split; congruence. Qed.

(** ** Loops that append *)

(** A [for] loop that appends [g x] for the [x] passing [f] leaves the
    accumulator followed by the image of the filtered list. *)
Lemma fold_append_filter {A B} (f : A -> bool) (g : A -> B) (l : list A) :
  forall acc,
    fold_left (fun acc x => if f x then acc ++ [g x] else acc) l acc
    = acc ++ map g (filter f l).
Proof.
  induction l as [|x l IH]; intros acc; simpl.
  - now rewrite app_nil_r.
  - rewrite IH. destruct (f x); simpl.
    + now rewrite <- app_assoc.
    + reflexivity.
Qed.

Lemma filter_all {A} (f : A -> bool) (l : list A) :
  (forall x, In x l -> f x = true) -> filter f l = l.
Proof.
  induction l as [|x l IH]; intros H; simpl.
  - reflexivity.
  - rewrite (H x (or_introl eq_refl)), IH; [reflexivity|].
    intros y Hy. apply H. now right.
Qed.

Lemma filter_nil_iff {A} (f : A -> bool) (l : list A) :
  filter f l = [] <-> forall x, In x l -> f x = false.
Proof.
  induction l as [|x l IH]; simpl.
  - split; [intros _ x [] | reflexivity].
  - destruct (f x) eqn:E.
    + split; [discriminate|]. intros H. specialize (H x (or_introl eq_refl)). congruence.
    + rewrite IH. split.
      * intros H y [<-|Hy]; auto.
      * intros H y Hy. apply H. now right.
Qed.

(** ** Search *)

Section SearchFacts.
Context {L : Library}.

Lemma ci_substring_iff (q s : string) :
  str_in (lower q) (lower s) = true <-> ci_substring q s.
Proof. apply str_in_iff. Qed.

Lemma project_hit_iff (q : string) (p : Project) :
  project_hit q p = true <-> project_matches q p.
Proof.
  unfold project_hit, project_matches.
  rewrite !orb_true_iff, existsb_exists, <- !ci_substring_iff.
  split.
  - intros [[H|H]|[t [Hin H]]]; auto.
    right; right. exists t. now rewrite <- ci_substring_iff.
  - intros [H|[H|[t [Hin H]]]]; auto.
    right. exists t. now rewrite ci_substring_iff.
Qed.

Lemma skill_hit_iff (q : string) (s : Skill) :
  skill_hit q s = true <-> skill_matches q s.
Proof. apply ci_substring_iff. Qed.

(** What [search_content] computes, for any query. *)
Lemma search_content_run (q : string) (category : option string)
      (env : Env) (st : State) :
  search_content q category env st =
  (Return (mkSearchResponse q
     (map project_result (filter (project_hit q) (PROJECTS_DATA st)) ++
      map skill_result (filter (skill_hit q) (SKILLS_DATA env)))), st).
Proof.
  unfold search_content, bind, ask, get, ret. simpl.
  now rewrite !fold_append_filter.
Qed.

Lemma empty_query_hits_project (q : string) (p : Project) :
  lower q = "" -> project_hit q p = true.
Proof. intros H. unfold project_hit. now rewrite H, str_in_empty. Qed.

Lemma empty_query_hits_skill (q : string) (s : Skill) :
  lower q = "" -> skill_hit q s = true.
Proof. intros H. unfold skill_hit. now rewrite H, str_in_empty. Qed.

End SearchFacts.

Section SearchClaims.
Context {L : Library}.

(** C6. For every query (so for every non-empty one), [search_content]
    returns without error, echoing the query, exactly the results of the
    projects that match (the query is a case-insensitive substring of the
    title, the description or some technology tag) in catalog order,
    followed by the results of the skills that match (the query is a
    case-insensitive substring of the name) in catalog order; a result
    carries its type, its title, a description and a URL. *)
Theorem search_content_exact (q : string) (category : option string)
        (env : Env) (st : State) :
  (exists r,
      search_content q category env st = (Return r, st) /\
      query r = q /\
      results r =
        map project_result (filter (project_hit q) (PROJECTS_DATA st)) ++
        map skill_result (filter (skill_hit q) (SKILLS_DATA env))) /\
  (forall p, project_hit q p = true <-> project_matches q p) /\
  (forall s, skill_hit q s = true <-> skill_matches q s) /\
  (forall p, project_result p =
             mkSearchResult "project" (p_title p) (p_description p)
                            ("/api/projects/" ++ p_id p)) /\
  (forall s, sr_type (skill_result s) = "skill" /\
             sr_title (skill_result s) = s_name s /\
             sr_description (skill_result s) =
               (s_category s ++ " - " ++ str_int (s_level s) ++ "%")%string /\
             sr_url (skill_result s) = "/api/skills").
Proof.
  split; [|split; [|split; [|split]]].
  - eexists. rewrite search_content_run. repeat split.
  - apply project_hit_iff.
  - apply skill_hit_iff.
  - reflexivity.
  - intros s. repeat split.
Qed.

(** C10. [search_content] never looks at [category]: whatever two values
    it is given (or none), the outcome for a query is the same. *)
Theorem search_content_ignores_category (q : string)
        (category1 category2 : option string) (env : Env) (st : State) :
  search_content q category1 env st = search_content q category2 env st.
Proof.
  rewrite (search_content_run q category1 env st).
  rewrite (search_content_run q category2 env st).
  reflexivity.
Qed.

(** C1, as amended. For a query that is empty or white space only,
    [search_content] returns without error and leaves the state alone;
    the empty query yields every project then every skill, and a
    white-space query is matched like any other, so the result list is
    empty exactly when no project and no skill matches it. *)
Theorem search_content_blank_query (q : string) (category : option string)
        (env : Env) (st : State) :
  blank q = true ->
  exists r,
    search_content q category env st = (Return r, st) /\
    query r = q /\
    (q = "" ->
     results r = map project_result (PROJECTS_DATA st) ++
                 map skill_result (SKILLS_DATA env)) /\
    (results r = [] <->
     (forall p, In p (PROJECTS_DATA st) -> ~ project_matches q p) /\
     (forall s, In s (SKILLS_DATA env) -> ~ skill_matches q s)).
Proof.
  intros _. eexists. rewrite search_content_run.
  split; [reflexivity|]. split; [reflexivity|]. cbn [results]. split.
  - intros ->.
    rewrite !filter_all; [reflexivity| |].
    + intros s _. apply empty_query_hits_skill, lower_empty.
    + intros p _. apply empty_query_hits_project, lower_empty.
  - split.
    + intros H. apply app_eq_nil in H. destruct H as [Hp Hs].
      apply map_eq_nil in Hp. apply map_eq_nil in Hs.
      rewrite filter_nil_iff in Hp. rewrite filter_nil_iff in Hs. split.
      * intros p Hin Hm. apply project_hit_iff in Hm.
        rewrite (Hp p Hin) in Hm. discriminate.
      * intros s Hin Hm. apply skill_hit_iff in Hm.
        rewrite (Hs s Hin) in Hm. discriminate.
    + intros [Hp Hs].
      assert (Ep : filter (project_hit q) (PROJECTS_DATA st) = []).
      { apply filter_nil_iff. intros p Hin.
        destruct (project_hit q p) eqn:E; [|reflexivity].
        exfalso. apply (Hp p Hin). now apply project_hit_iff. }
      assert (Es : filter (skill_hit q) (SKILLS_DATA env) = []).
      { apply filter_nil_iff. intros s Hin.
        destruct (skill_hit q s) eqn:E; [|reflexivity].
        exfalso. apply (Hs s Hin). now apply skill_hit_iff. }
      now rewrite Ep, Es.
Qed.

End SearchClaims.

(** C1 fails as stated: on the catalog of [main.py] the empty query
    returns all fifteen entries, and the query of one space returns the
    seven entries with a space in a searched field. *)
Lemma search_content_blank_query_counterexample :
  blank "" = true /\ blank " " = true /\
  (exists r, search_content "" None env0 st0 = (Return r, st0) /\
             length (results r) = 15 /\ results r <> []) /\
  (exists r, search_content " " None env0 st0 = (Return r, st0) /\
             map sr_title (results r) =
               ["Amazon Clone"; "Movie Discovery App"; "Weather Forecast App";
                "Currency Converter"; "CRUD Task Manager"; "React JS"; "Tailwind CSS"] /\
             results r <> []).
Proof.
  split; [reflexivity|]. split; [reflexivity|]. split.
  - eexists. split; [vm_compute; reflexivity|]. split; [reflexivity | discriminate].
  - eexists. split; [vm_compute; reflexivity|]. split; [reflexivity | discriminate].
Qed.

Lemma search_content_blank_query_witness :
  blank " " = true /\
  exists r,
    search_content " " None env0 st0 = (Return r, st0) /\
    query r = " ".
Proof.
  split; [reflexivity|].
  destruct (search_content_blank_query " " None env0 st0 eq_refl)
    as [r [H1 [H2 _]]].
  exists r. split; assumption.
Defined.

(** ** Catalog reads *)

Lemma find_first {A} (f : A -> bool) (l : list A) (x : A) :
  find f l = Some x ->
  exists before after,
    l = before ++ x :: after /\ f x = true /\
    forall y, In y before -> f y = false.
Proof.
  induction l as [|a l IH]; simpl; [discriminate|].
  destruct (f a) eqn:E.
  - intros [= <-]. exists [], l. repeat split; [assumption | intros y []].
  - intros H. destruct (IH H) as [before [after [-> [Hx Hb]]]].
    exists (a :: before), after. repeat split; [assumption|].
    intros y [<-|Hy]; auto.
Qed.

Lemma NoDup_map_same {A B} (g : A -> B) (l : list A) (x y : A) :
  NoDup (map g l) -> In x l -> In y l -> g x = g y -> x = y.
Proof.
  induction l as [|a l IH]; simpl; [intros _ []|].
  intros Hnd Hx Hy E. inversion Hnd as [|? ? Hnotin Hnd']; subst.
  destruct Hx as [<-|Hx], Hy as [<-|Hy]; auto.
  - exfalso. apply Hnotin. rewrite E. now apply in_map.
  - exfalso. apply Hnotin. rewrite <- E. now apply in_map.
Qed.

Lemma find_absent {A} (f : A -> bool) (l : list A) :
  (forall x, In x l -> f x = false) -> find f l = None.
Proof.
  induction l as [|a l IH]; simpl; intros H; [reflexivity|].
  rewrite (H a (or_introl eq_refl)). apply IH. intros x Hx. apply H. now right.
Qed.

Lemma find_present {A} (f : A -> bool) (l : list A) (x : A) :
  In x l -> f x = true -> exists y, find f l = Some y.
Proof.
  induction l as [|a l IH]; simpl; [intros []|].
  intros [<-|Hx] Hf.
  - rewrite Hf. now exists a.
  - destruct (f a); [now exists a | now apply IH].
Qed.

(** Looking a record up by its identifier in a collection: the first
    record that carries it, which is the only one when identifiers are
    unique, or nothing when no record carries it. *)
Lemma find_by_id {A} (key : A -> string) (l : list A) (id : string) :
  (forall x, In x l -> key x = id ->
     exists found before after,
       find (fun y => String.eqb (key y) id) l = Some found /\
       key found = id /\
       l = before ++ found :: after /\
       (forall y, In y before -> key y <> id) /\
       (NoDup (map key l) -> found = x)) /\
  ((forall x, In x l -> key x <> id) ->
   find (fun y => String.eqb (key y) id) l = None).
Proof.
  split.
  - intros x Hin Hid.
    destruct (find_present (fun y => String.eqb (key y) id) l x Hin) as [found Hf].
    { now apply String.eqb_eq. }
    destruct (find_first _ _ _ Hf) as [before [after [Hl [Hk Hb]]]].
    apply String.eqb_eq in Hk.
    exists found, before, after. repeat split; try assumption.
    + intros y Hy. apply String.eqb_neq. now apply Hb.
    + intros Hnd. apply (NoDup_map_same key l); try assumption.
      * rewrite Hl. apply in_or_app. right. now left.
      * congruence.
  - intros H. apply find_absent. intros x Hx. apply String.eqb_neq. now apply H.
Qed.

Section CatalogClaims.
Context {L : Library}.

Lemma ci_equalb_iff (a b : string) : ci_equalb a b = true <-> ci_equal a b.
Proof. apply String.eqb_eq. Qed.

(** C9. [get_project] and [get_experience]: when some record of the
    collection carries the identifier, a record carrying it is returned
    (the first in catalog order, hence that very record when identifiers
    are unique); when none does, the handler raises the 404
    [HTTPException]. Either way the state is left as it was. *)
Theorem lookup_by_id (project_id experience_id : string) (env : Env) (st : State) :
  (forall p, In p (PROJECTS_DATA st) -> p_id p = project_id ->
     exists found before after,
       get_project project_id env st = (Return found, st) /\
       p_id found = project_id /\
       PROJECTS_DATA st = before ++ found :: after /\
       (forall y, In y before -> p_id y <> project_id) /\
       (NoDup (map p_id (PROJECTS_DATA st)) -> found = p)) /\
  ((forall p, In p (PROJECTS_DATA st) -> p_id p <> project_id) ->
   get_project project_id env st =
     (Raise (HTTPException 404 "Project not found"), st)) /\
  (forall e, In e (EXPERIENCES_DATA env) -> e_id e = experience_id ->
     exists found before after,
       get_experience experience_id env st = (Return found, st) /\
       e_id found = experience_id /\
       EXPERIENCES_DATA env = before ++ found :: after /\
       (forall y, In y before -> e_id y <> experience_id) /\
       (NoDup (map e_id (EXPERIENCES_DATA env)) -> found = e)) /\
  ((forall e, In e (EXPERIENCES_DATA env) -> e_id e <> experience_id) ->
   get_experience experience_id env st =
     (Raise (HTTPException 404 "Experience not found"), st)).
Proof.
  destruct (find_by_id p_id (PROJECTS_DATA st) project_id) as [Pyes Pno].
  destruct (find_by_id e_id (EXPERIENCES_DATA env) experience_id) as [Eyes Eno].
  split; [|split; [|split]].
  - intros p Hin Hid.
    destruct (Pyes p Hin Hid) as [found [before [after [Hf H]]]].
    exists found, before, after. split; [|exact H].
    unfold get_project, bind, get, ret. simpl. now rewrite Hf.
  - intros H. unfold get_project, bind, get, raise. simpl. now rewrite (Pno H).
  - intros e Hin Hid.
    destruct (Eyes e Hin Hid) as [found [before [after [Hf H]]]].
    exists found, before, after. split; [|exact H].
    unfold get_experience, bind, ask, ret. simpl. now rewrite Hf.
  - intros H. unfold get_experience, bind, ask, raise. simpl. now rewrite (Eno H).
Qed.

(** C7, as amended. With a non-empty [category], [get_skills] returns
    exactly the skills whose category equals it case-insensitively, and
    with a non-empty [type], [get_experiences] exactly the experiences
    whose type does, in catalog order; [get_projects] with a flag returns
    exactly the projects whose [featured] is that flag; with no criterion,
    and for [get_skills] and [get_experiences] also with the empty string,
    the whole collection comes back in catalog order. *)
Theorem exact_match_filters (category type : string) (featured : bool)
        (env : Env) (st : State) :
  category <> "" -> type <> "" ->
  get_skills (Some category) env st =
    (Return (filter (fun s => ci_equalb (s_category s) category) (SKILLS_DATA env)), st) /\
  get_experiences (Some type) env st =
    (Return (filter (fun e => ci_equalb (e_type e) type) (EXPERIENCES_DATA env)), st) /\
  get_projects (Some featured) env st =
    (Return (filter (fun p => Bool.eqb (p_featured p) featured) (PROJECTS_DATA st)), st) /\
  (forall a b, ci_equalb a b = true <-> ci_equal a b) /\
  (forall p, Bool.eqb (p_featured p) featured = true <-> p_featured p = featured) /\
  get_skills None env st = (Return (SKILLS_DATA env), st) /\
  get_experiences None env st = (Return (EXPERIENCES_DATA env), st) /\
  get_projects None env st = (Return (PROJECTS_DATA st), st) /\
  get_skills (Some "") env st = (Return (SKILLS_DATA env), st) /\
  get_experiences (Some "") env st = (Return (EXPERIENCES_DATA env), st).
Proof.
  intros Hc Ht.
  apply truthy_iff in Hc. apply truthy_iff in Ht.
  unfold get_skills, get_experiences, get_projects, bind, ask, get, ret. simpl.
  rewrite Hc, Ht. repeat split; try apply ci_equalb_iff; try apply Bool.eqb_true_iff.
Qed.

End CatalogClaims.

(** C7 fails as stated at the empty category (and the empty type): no
    skill of the catalog has a category equal to the empty string, yet
    [get_skills] hands back all ten skills. *)
Lemma exact_match_filters_counterexample :
  (forall s, In s Fixture.SKILLS_DATA -> ~ ci_equal (s_category s) "") /\
  get_skills (Some "") env0 st0 = (Return Fixture.SKILLS_DATA, st0) /\
  length Fixture.SKILLS_DATA = 10 /\
  (forall e, In e Fixture.EXPERIENCES_DATA -> ~ ci_equal (e_type e) "") /\
  get_experiences (Some "") env0 st0 = (Return Fixture.EXPERIENCES_DATA, st0).
Proof.
  split; [|split; [reflexivity|split; [reflexivity|split; [|reflexivity]]]].
  - intros s Hin. unfold ci_equal.
    repeat (destruct Hin as [<-|Hin]; [vm_compute; discriminate|]). destruct Hin.
  - intros e Hin. unfold ci_equal.
    repeat (destruct Hin as [<-|Hin]; [vm_compute; discriminate|]). destruct Hin.
Qed.

Lemma exact_match_filters_witness :
  "Frontend" <> "" /\ "internship" <> "" /\
  get_skills (Some "Frontend") env0 st0 =
    (Return (filter (fun s => ci_equalb (s_category s) "Frontend") Fixture.SKILLS_DATA), st0).
Proof.
  assert (H1 : "Frontend" <> "") by discriminate.
  assert (H2 : "internship" <> "") by discriminate.
  split; [exact H1|]. split; [exact H2|].
  exact (proj1 (exact_match_filters "Frontend" "internship" true env0 st0 H1 H2)).
Defined.

Lemma lookup_by_id_witness :
  (exists p, In p Fixture.PROJECTS_DATA /\ p_id p = "3") /\
  (forall e, In e Fixture.EXPERIENCES_DATA -> e_id e <> "9") /\
  (exists found, get_project "3" env0 st0 = (Return found, st0) /\
                 p_title found = "Weather Forecast App") /\
  get_experience "9" env0 st0 =
    (Raise (HTTPException 404 "Experience not found"), st0).
Proof.
  pose (p := nth 2 Fixture.PROJECTS_DATA (mkProject "" "" "" "" [] "" "" false)).
  assert (Hin : In p (PROJECTS_DATA st0)) by (simpl; tauto).
  assert (Hno : forall e, In e (EXPERIENCES_DATA env0) -> e_id e <> "9").
  { intros e He. simpl in He.
    repeat (destruct He as [<-|He]; [discriminate|]). destruct He. }
  destruct (lookup_by_id "3" "9" env0 st0) as [Hp [_ [_ He]]].
  destruct (Hp p Hin eq_refl) as [found [before [after [Hrun [_ [_ [_ Huniq]]]]]]].
  split; [exists p; split; [exact Hin | reflexivity]|].
  split; [exact Hno|]. split.
  - exists found. split; [exact Hrun|].
    rewrite (Huniq ltac:(vm_compute; repeat constructor; simpl; intuition discriminate)).
    reflexivity.
  - exact (He Hno).
Defined.

(** ** ISO-8601 text of a [datetime] *)

Module ISOFacts.
Import ISO.
Local Open Scope N_scope.

(** Linear arithmetic with division and remainder by constants. *)
Ltac lia_div := zify; Z.to_euclidean_division_equations; lia.

Lemma undigit_digit (n : N) : undigit (digit n) = Some (n mod 10).
Proof.
  unfold undigit, digit.
  rewrite N_ascii_embedding by lia_div. cbv zeta.
  replace (48 <=? 48 + n mod 10) with true by (symmetry; apply N.leb_le; lia_div).
  replace (48 + n mod 10 <=? 57) with true by (symmetry; apply N.leb_le; lia_div).
  cbn [andb]. f_equal. lia_div.
Qed.

Lemma digits_step (k : nat) (acc n : N) (s : string) :
  digits (S k) acc (String (digit n) s) = digits k (10 * acc + n mod 10) s.
Proof. cbn [digits]. now rewrite undigit_digit. Qed.

(** Two printed digits read back as the last two digits of the number. *)
Lemma digits_pad2_acc (k : nat) (acc n : N) (s : string) :
  digits (S (S k)) acc (pad2 n s) = digits k (100 * acc + n mod 100) s.
Proof.
  unfold pad2. rewrite !digits_step. f_equal. lia_div.
Qed.

Lemma digits_pad2 (n : N) (k : string) :
  n < 100 -> digits 2 0 (pad2 n k) = Some (n, k).
Proof.
  intros H. rewrite digits_pad2_acc. cbn [digits]. f_equal. f_equal. lia_div.
Qed.

Lemma digits_pad4 (n : N) (k : string) :
  n < 10000 -> digits 4 0 (pad4 n k) = Some (n, k).
Proof.
  intros H. unfold pad4. rewrite !digits_pad2_acc. cbn [digits].
  f_equal. f_equal. lia_div.
Qed.

Lemma digits_pad6 (n : N) (k : string) :
  n < 1000000 -> digits 6 0 (pad6 n k) = Some (n, k).
Proof.
  intros H. unfold pad6, pad4. rewrite !digits_pad2_acc. cbn [digits].
  f_equal. f_equal. lia_div.
Qed.

Lemma days_in_month_le (y m : N) : days_in_month y m <= 31.
Proof.
  unfold days_in_month.
  destruct m as [|p]; [lia|].
  do 4 (try destruct p as [p|p|]); try destruct (leap y); lia.
Qed.

(** Every [datetime] reads back from its own ISO-8601 text. *)
Lemma fromisoformat_isoformat (d : datetime) :
  valid d = true -> fromisoformat (isoformat d) = Some d.
Proof.
  intros Hv. pose proof Hv as Hv'.
  unfold valid in Hv'. rewrite !andb_true_iff in Hv'.
  destruct Hv' as [[[[[[[[[Hy1 Hy2] Hm1] Hm2] Hd1] Hd2] Hh] Hmi] Hs] Hus].
  pose proof (days_in_month_le (year d) (month d)) as Hdm.
  apply N.leb_le in Hy2, Hm2, Hd2. apply N.ltb_lt in Hh, Hmi, Hs, Hus.
  destruct d as [y mo dd h mi se us]. cbn [year month day hour minute second microsecond] in *.
  unfold fromisoformat, isoformat.
  cbn [year month day hour minute second microsecond].
  rewrite digits_pad4 by lia. cbn [obind expect Ascii.eqb Bool.eqb].
  rewrite digits_pad2 by lia. cbn [obind expect Ascii.eqb Bool.eqb].
  rewrite digits_pad2 by lia. cbn [obind expect Ascii.eqb Bool.eqb].
  rewrite digits_pad2 by lia. cbn [obind expect Ascii.eqb Bool.eqb].
  rewrite digits_pad2 by lia. cbn [obind expect Ascii.eqb Bool.eqb].
  rewrite digits_pad2 by lia. cbn [obind].
  destruct (us =? 0) eqn:E.
  - apply N.eqb_eq in E. subst us. cbn [obind]. now rewrite Hv.
  - rewrite digits_pad6 by lia. cbn [obind]. now rewrite Hv.
Qed.

Lemma lex_leb_refl (a : list N) : lex_leb a a = true.
Proof.
  induction a as [|x a IH]; simpl; [reflexivity|].
  rewrite N.eqb_refl, IH. apply orb_true_r.
Qed.

Lemma leb_refl (d : datetime) : leb d d = true.
Proof. apply lex_leb_refl. Qed.

End ISOFacts.

(** ** The record store *)

(** Unfolding a handler down to the state it threads. *)
Ltac run_py :=
  cbv beta iota zeta delta
      [try_except bind ret raise ask get modify
       logger_error logger_info str_uuid4 now exists_
       open_r_json_load open_w_json_dump append smtp].

Section StoreFacts.
Context {L : Library}.

(** [save_contact_message] turns every outcome of its [try] block into a
    returned value. *)
Lemma save_contact_message_run (contact_data : ContactMessage)
      (env : Env) (st : State) :
  save_contact_message contact_data env st =
  match save_contact_message_try contact_data env st with
  | (Return id, st') => (Return (Some id), st')
  | (Raise e, st') => (Return None, save_failed e st')
  end.
Proof.
  unfold save_contact_message, try_except, bind, ret.
  destruct (save_contact_message_try contact_data env st) as [[id|e] st'];
    reflexivity.
Qed.

(** [submit_contact] answers with whatever [save_contact_message] gave
    and registers the notification. *)
Lemma submit_contact_run (contact : ContactMessage) (background_tasks : list Task)
      (env : Env) (st : State) (message_id : option string) (st' : State) :
  save_contact_message contact env st = (Return message_id, st') ->
  submit_contact contact background_tasks env st =
  (Return (mkContactResponse true thanks message_id,
           background_tasks ++ [Task_send_email contact]), st').
Proof.
  intros H. unfold submit_contact, try_except, bind, ret. now rewrite H.
Qed.

Lemma save_contact_message_returns (contact_data : ContactMessage)
      (env : Env) (st : State) :
  exists message_id st',
    save_contact_message contact_data env st = (Return message_id, st').
Proof.
  rewrite save_contact_message_run.
  destruct (save_contact_message_try contact_data env st) as [[id|e] st'];
    eauto.
Qed.

(** The [try] block when the file is there and cannot be read. *)
Lemma save_try_unreadable (contact_data : ContactMessage) (env : Env) (st : State) :
  messages_file st = Corrupt \/
  (messages_file st <> NoFile /\ open_read_fault env <> None) ->
  exists e, save_contact_message_try contact_data env st = (Raise e, st).
Proof.
  intros H. unfold save_contact_message_try. run_py.
  destruct H as [H | [Hfile Hfault]].
  - rewrite H. run_py.
    destruct (open_read_fault env) as [e|]; [|rewrite H]; eexists; reflexivity.
  - destruct (messages_file st) eqn:E; [congruence| |]; run_py;
      (destruct (open_read_fault env) as [e|]; [|congruence]);
      eexists; reflexivity.
Qed.

(** The [try] block when nothing goes wrong. *)
Lemma save_try_appends (contact_data : ContactMessage) (env : Env) (st : State)
      (prior : list json) :
  (messages_file st = NoFile /\ prior = []) \/ messages_file st = Stored (JList prior) ->
  open_read_fault env = None -> open_write_fault env = None ->
  dump_fault env = None ->
  let id := uuid4 env (uuid_drawn st) in
  let t := datetime_now env (clock_read st) in
  save_contact_message_try contact_data env st =
  (Return id,
   set_messages_file
     (Stored (JList (prior ++ [message_data_of id contact_data (ISO.isoformat t)])))
     (set_clock_read (S (clock_read st)) (set_uuid_drawn (S (uuid_drawn st)) st))).
Proof.
  intros Hfile Hr Hw Hd. unfold save_contact_message_try. run_py.
  destruct Hfile as [[Hfile ->] | Hfile]; rewrite Hfile; run_py;
    rewrite ?Hr, ?Hfile, Hw, Hd; reflexivity.
Qed.

(** The [try] block when the file cannot be written: a refused [open]
    leaves the file as it was, a failed [json.dump] leaves it emptied or
    half written. *)
Lemma save_try_write_failure (contact_data : ContactMessage) (env : Env) (st : State)
      (prior : list json) :
  (messages_file st = NoFile /\ prior = []) \/ messages_file st = Stored (JList prior) ->
  open_read_fault env = None ->
  (forall e, open_write_fault env = Some e ->
     exists st', save_contact_message_try contact_data env st = (Raise e, st') /\
                 messages_file st' = messages_file st) /\
  (forall e, open_write_fault env = None -> dump_fault env = Some e ->
     exists st', save_contact_message_try contact_data env st = (Raise e, st') /\
                 messages_file st' = Corrupt).
Proof.
  intros Hfile Hr. split.
  - intros e Hw. unfold save_contact_message_try. run_py.
    destruct Hfile as [[Hfile ->] | Hfile]; rewrite Hfile; run_py;
      rewrite ?Hr, ?Hfile, Hw; eexists; (split; [reflexivity|]); simpl;
      now rewrite Hfile.
  - intros e Hw Hd. unfold save_contact_message_try. run_py.
    destruct Hfile as [[Hfile ->] | Hfile]; rewrite Hfile; run_py;
      rewrite ?Hr, ?Hfile, Hw, Hd; eexists; split; reflexivity.
Qed.

(** [save_contact_message] returns an identifier exactly when the file is
    absent, or holds a list and can be read, and can then be written. *)
Lemma save_contact_message_succeeds_iff (contact_data : ContactMessage)
      (env : Env) (st : State) :
  (exists id st', save_contact_message contact_data env st = (Return (Some id), st')) <->
  (messages_file st = NoFile \/
   (exists prior, messages_file st = Stored (JList prior)) /\ open_read_fault env = None) /\
  open_write_fault env = None /\ dump_fault env = None.
Proof.
  rewrite save_contact_message_run. unfold save_contact_message_try. run_py.
  destruct (messages_file st) as [| |j] eqn:E; run_py.
  - destruct (open_write_fault env) as [ew|]; [|destruct (dump_fault env) as [ed|]];
      (split; [intros [id [st' H]] | intros [_ [Hw Hd]]]);
      try discriminate; eauto.
  - destruct (open_read_fault env) as [er|]; rewrite ?E;
      (split; [intros [id [st' H]]; discriminate
              | intros [[H | [[prior H] _]] _]; discriminate]).
  - destruct (open_read_fault env) as [er|]; rewrite ?E; run_py.
    + split; [intros [id [st' H]]; discriminate|].
      intros [[H | [_ H]] _]; discriminate.
    + destruct j; run_py;
        try (split; [intros [id [st' H]]; discriminate
                    | intros [[H | [[prior H] _]] _]; discriminate]).
      destruct (open_write_fault env) as [ew|]; [|destruct (dump_fault env) as [ed|]];
        (split; [intros [id [st' H]] | intros [_ [Hw Hd]]]);
        try discriminate; eauto 6.
Qed.

End StoreFacts.

Lemma length_between_iff (lo hi : nat) (s : string) :
  length_between lo hi s = true <-> lo <= String.length s <= hi.
Proof.
  unfold length_between. rewrite andb_true_iff, !Nat.leb_le. tauto.
Qed.

Section StoreClaims.
Context {L : Library}.

(** C2, as amended. When the record file is there and reading it fails
    (its text is no JSON document, or it cannot be opened),
    [save_contact_message] appends nothing and does not raise: it logs
    the exception, returns [None] and leaves everything else, the record
    file included, as it was. *)
Theorem unreadable_store_not_appended (contact_data : ContactMessage)
        (env : Env) (st : State) :
  messages_file st = Corrupt \/
  (messages_file st <> NoFile /\ open_read_fault env <> None) ->
  exists e,
    save_contact_message contact_data env st = (Return None, save_failed e st) /\
    messages_file (save_failed e st) = messages_file st.
Proof.
  intros H. rewrite save_contact_message_run.
  destruct (save_try_unreadable contact_data env st H) as [e ->].
  exists e. split; reflexivity.
Qed.

(** C3. For every submission that passes validation: if the [try] block
    of [save_contact_message] raises, whatever the exception,
    [save_contact_message] returns [None] after logging it, and
    [submit_contact] still returns the success response, with [id] being
    [None], and registers the notification; so does the route. *)
Theorem persistence_failure_null_id (raw : RawContact) (contact : ContactMessage)
        (env : Env) (st : State) (e : exn) (st1 : State) :
  ContactMessage_validate raw = inl contact ->
  save_contact_message_try contact env st = (Raise e, st1) ->
  save_contact_message contact env st = (Return None, save_failed e st1) /\
  (forall background_tasks,
      submit_contact contact background_tasks env st =
      (Return (mkContactResponse true thanks None,
               background_tasks ++ [Task_send_email contact]),
       save_failed e st1)) /\
  post_api_contact raw env st =
    (Reply200 (mkContactResponse true thanks None),
     [Task_send_email contact], save_failed e st1).
Proof.
  intros Hv Hfail.
  assert (Hsave : save_contact_message contact env st
                  = (Return None, save_failed e st1)).
  { now rewrite save_contact_message_run, Hfail. }
  split; [exact Hsave|]. split.
  - intros bt. now apply submit_contact_run.
  - unfold post_api_contact. rewrite Hv.
    now rewrite (submit_contact_run contact [] env st None _ Hsave).
Qed.

(** C5, as amended. For every validated submission and every prior store
    state in which the record file is absent or holds a JSON list, when
    reading and writing the file do not fail, [save_contact_message]
    returns the identifier it has just drawn, and reading the store
    afterwards yields the prior records, unchanged and in order, followed by
    one record that carries that identifier, the four fields of the
    submission, and a timestamp that parses as ISO-8601 to the one clock
    reading the call takes, the next after every reading taken before the
    call; that reading is not before an earlier one whenever the clock never
    goes back. *)
Theorem append_then_read (contact_data : ContactMessage) (env : Env) (st : State)
        (prior : list json) :
  (messages_file st = NoFile /\ prior = []) \/
  messages_file st = Stored (JList prior) ->
  open_read_fault env = None -> open_write_fault env = None ->
  dump_fault env = None ->
  ISO.valid (datetime_now env (clock_read st)) = true ->
  exists id st' record timestamp t,
    save_contact_message contact_data env st = (Return (Some id), st') /\
    id = uuid4 env (uuid_drawn st) /\
    uuid_drawn st' = S (uuid_drawn st) /\
    read_store env st' = (Return (JList (prior ++ [JDict record])), st') /\
    dict_get "id" record = Some (JStr id) /\
    record_of record contact_data /\
    dict_get "timestamp" record = Some (JStr timestamp) /\
    ISO.fromisoformat timestamp = Some t /\
    t = datetime_now env (clock_read st) /\
    clock_read st' = S (clock_read st) /\
    (monotone (datetime_now env) ->
     forall i, i < clock_read st -> ISO.leb (datetime_now env i) t = true).
Proof.
  intros Hfile Hr Hw Hd Hvalid.
  pose proof (save_try_appends contact_data env st prior Hfile Hr Hw Hd) as Htry.
  cbv zeta in Htry.
  do 5 eexists.
  split; [rewrite save_contact_message_run, Htry; reflexivity|].
  split; [reflexivity|]. split; [reflexivity|].
  split.
  { unfold read_store. run_py. rewrite Hr. reflexivity. }
  split; [reflexivity|]. split; [repeat split|].
  split; [reflexivity|].
  split; [now apply ISOFacts.fromisoformat_isoformat|].
  split; [reflexivity|]. split; [reflexivity|].
  intros Hmono i Hi. apply Hmono. lia.
Qed.

(** C4. A submission that breaks one of the shape constraints is
    refused with a validation error before [submit_contact] is entered:
    the state is left as it was (the record file with it) and no
    notification is registered or sent. *)
Theorem invalid_submission_rejected (raw : RawContact) (env : Env) (st : State) :
  violates raw ->
  exists fields,
    fields <> [] /\
    post_api_contact raw env st = (Reply422 fields, [], st) /\
    serve_contact raw env st = (Reply422 fields, st).
Proof.
  intros Hviol.
  assert (Hinr : exists fields, fields <> [] /\
                                ContactMessage_validate raw = inr fields).
  { unfold violates in Hviol. rewrite <- !length_between_iff in Hviol.
    unfold ContactMessage_validate.
    destruct (length_between 2 100 (raw_name raw));
      destruct (validate_email (raw_email raw));
      destruct (length_between 5 200 (raw_subject raw));
      destruct (length_between 10 1000 (raw_message raw));
      cbn [app];
      try (eexists; split; [|reflexivity]; discriminate).
    exfalso. destruct Hviol as [H | [H | [H | H]]];
      try discriminate; now apply H. }
  destruct Hinr as [fields [Hne Hinr]].
  exists fields. split; [exact Hne|].
  unfold serve_contact, post_api_contact. rewrite Hinr. split; reflexivity.
Qed.

End StoreClaims.

(** C2 fails as stated: with a record file whose text is no JSON
    document, [save_contact_message] returns [None], not an identifier, and
    the file is left corrupt, with no record appended. *)
Lemma unreadable_store_counterexample :
  messages_file st_corrupt = Corrupt /\
  (exists st',
      save_contact_message alice env0 st_corrupt = (Return None, st') /\
      messages_file st' = Corrupt /\
      logged st' = [(ERROR, "Failed to save contact message: Expecting value")]) /\
  ~ (exists id st', save_contact_message alice env0 st_corrupt = (Return (Some id), st')).
Proof.
  split; [reflexivity|]. split.
  - eexists. split; [vm_compute; reflexivity|]. split; reflexivity.
  - intros [id [st' H]]. vm_compute in H. discriminate.
Qed.

Lemma unreadable_store_not_appended_witness :
  exists e,
    save_contact_message alice env0 st_corrupt = (Return None, save_failed e st_corrupt) /\
    messages_file (save_failed e st_corrupt) = messages_file st_corrupt.
Proof.
  apply (unreadable_store_not_appended alice env0 st_corrupt).
  left. reflexivity.
Defined.

Lemma persistence_failure_null_id_witness :
  ContactMessage_validate raw_alice = inl alice /\
  post_api_contact raw_alice env0 st_corrupt =
    (Reply200 (mkContactResponse true thanks None), [Task_send_email alice],
     save_failed (PyError "JSONDecodeError" "Expecting value") st_corrupt).
Proof.
  split; [reflexivity|].
  apply (persistence_failure_null_id raw_alice alice env0 st_corrupt
           (PyError "JSONDecodeError" "Expecting value") st_corrupt);
    reflexivity.
Defined.

Lemma clock_of_monotone : monotone clock_of.
Proof.
  intros i j Hij. unfold ISO.leb, clock_of, ISO.fields. cbn -[N.min N.of_nat].
  destruct (N.ltb_spec (N.min (N.of_nat i) 999999) (N.min (N.of_nat j) 999999)) as [H|H];
    [reflexivity|].
  cbn. rewrite andb_true_r. apply N.eqb_eq. lia.
Qed.

(** C5 fails as stated. With a record file whose text is no JSON
    document, or one that holds a JSON object, [save_contact_message]
    returns no identifier and appends nothing, so that reading the store
    afterwards raises, or yields the object and no list. And with a list in
    the file and a wall clock set back before the call, the record is
    appended with a timestamp that lies before the reading taken before the
    call. *)
Lemma append_then_read_counterexample :
  (exists st',
      save_contact_message alice env0 st_corrupt = (Return None, st') /\
      messages_file st' = Corrupt /\
      exists e, read_store env0 st' = (Raise e, st')) /\
  (exists st',
      save_contact_message alice env0 st_dict = (Return None, st') /\
      read_store env0 st' = (Return (JDict []), st') /\
      forall l, JDict [] <> JList l) /\
  (exists id st' record timestamp t,
      save_contact_message alice env_back st_one = (Return (Some id), st') /\
      read_store env_back st' = (Return (JList [bob; JDict record]), st') /\
      dict_get "timestamp" record = Some (JStr timestamp) /\
      ISO.fromisoformat timestamp = Some t /\
      0 < clock_read st_one /\
      ISO.leb (datetime_now env_back 0) t = false).
Proof.
  split; [|split].
  - eexists. split; [vm_compute; reflexivity|]. split; [reflexivity|].
    eexists. vm_compute. reflexivity.
  - eexists. split; [vm_compute; reflexivity|]. split; [vm_compute; reflexivity|].
    discriminate.
  - do 5 eexists. split; [vm_compute; reflexivity|].
    split; [vm_compute; reflexivity|]. split; [reflexivity|].
    split; [vm_compute; reflexivity|]. split; [vm_compute; lia | vm_compute; reflexivity].
Qed.

Lemma append_then_read_witness :
  exists id st' record timestamp t,
    save_contact_message alice env0 st_one = (Return (Some id), st') /\
    id = uuid_of 1 /\
    uuid_drawn st' = 2 /\
    read_store env0 st' = (Return (JList ([bob] ++ [JDict record])), st') /\
    dict_get "id" record = Some (JStr id) /\
    record_of record alice /\
    dict_get "timestamp" record = Some (JStr timestamp) /\
    ISO.fromisoformat timestamp = Some t /\
    t = clock_of 1 /\
    forall i, i < 1 -> ISO.leb (clock_of i) t = true.
Proof.
  destruct (append_then_read alice env0 st_one [bob])
    as [id [st' [record [timestamp [t H]]]]].
  - right. reflexivity.
  - reflexivity.
  - reflexivity.
  - reflexivity.
  - vm_compute. reflexivity.
  - exists id, st', record, timestamp, t.
    destruct H as [H1 [H2 [H3 [H4 [H5 [H6 [H7 [H8 [H9 [_ H10]]]]]]]]]].
    repeat (split; [assumption|]).
    exact (H10 clock_of_monotone).
Defined.

Lemma invalid_submission_rejected_witness :
  violates (mkRawContact "A" "alice@example.com" "Hello there" "I would like to talk.") /\
  exists fields,
    fields <> [] /\
    post_api_contact (mkRawContact "A" "alice@example.com" "Hello there"
                                   "I would like to talk.") env0 st0
    = (Reply422 fields, [], st0) /\
    serve_contact (mkRawContact "A" "alice@example.com" "Hello there"
                                "I would like to talk.") env0 st0
    = (Reply422 fields, st0).
Proof.
  assert (H : violates (mkRawContact "A" "alice@example.com" "Hello there"
                                     "I would like to talk.")).
  { left. simpl. lia. }
  split; [exact H|].
  exact (invalid_submission_rejected _ env0 st0 H).
Defined.

(** ** The notifier *)

Section NotifierFacts.
Context {L : Library}.

(** [send_email] always returns, and touches neither the record file nor
    the catalog. *)
Lemma send_email_returns (contact_data : ContactMessage) (env : Env) (st : State) :
  exists ok st',
    send_email contact_data env st = (Return ok, st') /\
    messages_file st' = messages_file st /\
    PROJECTS_DATA st' = PROJECTS_DATA st.
Proof.
  unfold send_email, send_email_try. run_py.
  destruct (smtp_fault env Build); run_py; [eexists; eexists; repeat split|].
  destruct (smtp_fault env Connect); run_py; [eexists; eexists; repeat split|].
  destruct (smtp_fault env StartTLS); run_py; [eexists; eexists; repeat split|].
  destruct (smtp_fault env Login); run_py; [eexists; eexists; repeat split|].
  destruct (smtp_fault env Send); run_py; [eexists; eexists; repeat split|].
  destruct (smtp_fault env Quit); run_py; eexists; eexists; repeat split.
Qed.

(** The background tasks of a request run to their end without raising
    and leave the record file alone. *)
Lemma run_tasks_returns (tasks : list Task) (env : Env) (st : State) :
  exists st',
    run_tasks tasks env st = (Return tt, st') /\
    messages_file st' = messages_file st.
Proof.
  revert st. induction tasks as [|[contact_data] tasks IH]; intros st.
  - exists st. split; reflexivity.
  - destruct (send_email_returns contact_data env st) as [ok [st1 [Hrun [Hfile _]]]].
    destruct (IH st1) as [st2 [Hrest Hfile2]].
    exists st2. split; [|congruence].
    cbn [run_tasks]. unfold bind. now rewrite Hrun.
Qed.

(** Neither the record store nor the route depends on how the mail
    relay behaves. *)
Lemma save_try_relay (contact_data : ContactMessage) (f : SmtpStep -> option exn)
      (env : Env) (st : State) :
  save_contact_message_try contact_data (with_smtp_fault f env) st
  = save_contact_message_try contact_data env st.
Proof.
  unfold save_contact_message_try, with_smtp_fault. run_py.
  cbn [uuid4 datetime_now open_read_fault open_write_fault dump_fault].
  destruct (messages_file st) as [| |j] eqn:E; run_py;
    cbn [uuid4 datetime_now open_read_fault open_write_fault dump_fault].
  - destruct (open_write_fault env); [reflexivity|].
    destruct (dump_fault env); reflexivity.
  - destruct (open_read_fault env); [reflexivity|]. now rewrite E.
  - destruct (open_read_fault env); [reflexivity|]. rewrite E. run_py.
    destruct j; run_py; try reflexivity.
    destruct (open_write_fault env); [reflexivity|].
    destruct (dump_fault env); reflexivity.
Qed.

Lemma post_api_contact_relay (raw : RawContact) (f : SmtpStep -> option exn)
      (env : Env) (st : State) :
  post_api_contact raw (with_smtp_fault f env) st = post_api_contact raw env st.
Proof.
  unfold post_api_contact.
  destruct (ContactMessage_validate raw) as [contact|fields]; [|reflexivity].
  destruct (save_contact_message_returns contact env st) as [message_id [st' H]].
  assert (H' : save_contact_message contact (with_smtp_fault f env) st
               = (Return message_id, st')).
  { rewrite save_contact_message_run in *. now rewrite save_try_relay. }
  now rewrite (submit_contact_run _ _ _ _ _ _ H), (submit_contact_run _ _ _ _ _ _ H').
Qed.

End NotifierFacts.

(** One failing call of [send_email]: the calls made before it, the call
    itself and its exception. *)
Ltac fault_case attempted failing e0 :=
  exists attempted, failing, e0; eexists;
  split; [reflexivity|];
  split; [cbn; rewrite <- ?app_assoc; reflexivity|];
  split; [eexists; reflexivity|];
  split; [repeat constructor; simpl; intuition discriminate|];
  split; [intros s Hs; simpl in Hs; intuition (subst; assumption)|];
  split; [assumption|];
  split; reflexivity.

Section NotifierClaims.
Context {L : Library}.

(** C8. When a call on the mail relay, or the construction of the
    message, fails, whichever it is: [send_email] returns [False] without
    raising, having logged the exception of the first failing call; each
    call of its program was made at most once, in program order, and none
    after the failing one (nothing is retried); the record file is
    untouched. The background tasks of a request never raise, and the
    reply of the route is the same whatever the relay does. *)
Theorem notifier_failure_swallowed (contact_data : ContactMessage)
        (env : Env) (st : State) (step : SmtpStep) (e : exn) :
  smtp_fault env step = Some e ->
  (exists attempted failing e' st',
      send_email contact_data env st = (Return false, st') /\
      smtp_trace st' = smtp_trace st ++ attempted ++ [failing] /\
      (exists rest, smtp_program = attempted ++ failing :: rest) /\
      NoDup (attempted ++ [failing]) /\
      (forall s, In s attempted -> smtp_fault env s = None) /\
      smtp_fault env failing = Some e' /\
      logged st' = logged st ++ [(ERROR, "Failed to send email: " ++ exn_str e')%string] /\
      messages_file st' = messages_file st) /\
  (forall tasks st1, exists st2, run_tasks tasks env st1 = (Return tt, st2)) /\
  (forall raw f st1,
      fst (serve_contact raw (with_smtp_fault f env) st1) = fst (serve_contact raw env st1) /\
      messages_file (snd (serve_contact raw (with_smtp_fault f env) st1))
      = messages_file (snd (serve_contact raw env st1))).
Proof.
  intros Hfault. split; [|split].
  - unfold send_email, send_email_try. run_py.
    destruct (smtp_fault env Build) as [e0|] eqn:F0; run_py;
      [fault_case (@nil SmtpStep) Build e0|].
    destruct (smtp_fault env Connect) as [e1|] eqn:F1; run_py;
      [fault_case [Build] Connect e1|].
    destruct (smtp_fault env StartTLS) as [e2|] eqn:F2; run_py;
      [fault_case [Build; Connect] StartTLS e2|].
    destruct (smtp_fault env Login) as [e3|] eqn:F3; run_py;
      [fault_case [Build; Connect; StartTLS] Login e3|].
    destruct (smtp_fault env Send) as [e4|] eqn:F4; run_py;
      [fault_case [Build; Connect; StartTLS; Login] Send e4|].
    destruct (smtp_fault env Quit) as [e5|] eqn:F5; run_py;
      [fault_case [Build; Connect; StartTLS; Login; Send] Quit e5|].
    destruct step; congruence.
  - intros tasks st1.
    destruct (run_tasks_returns tasks env st1) as [st2 [H _]]. now exists st2.
  - intros raw f st1. unfold serve_contact.
    rewrite post_api_contact_relay.
    destruct (post_api_contact raw env st1) as [[reply tasks] st2].
    split; [reflexivity|]. cbn [snd].
    destruct (run_tasks_returns tasks (with_smtp_fault f env) st2) as [sa [-> Ha]].
    destruct (run_tasks_returns tasks env st2) as [sb [-> Hb]].
    cbn [snd]. congruence.
Qed.

End NotifierClaims.

Lemma notifier_failure_swallowed_witness :
  login_refused Login = Some (PyError "SMTPAuthenticationError" "535 bad credentials") /\
  exists st',
    send_email alice (with_smtp_fault login_refused env0) st0 = (Return false, st') /\
    fst (serve_contact raw_alice (with_smtp_fault login_refused env0) st0)
    = fst (serve_contact raw_alice env0 st0).
Proof.
  split; [reflexivity|].
  destruct (notifier_failure_swallowed alice (with_smtp_fault login_refused env0) st0
              Login _ eq_refl) as [[attempted [failing [e' [st' [Hrun _]]]]] [_ Hreply]].
  exists st'. split; [exact Hrun|].
  destruct (Hreply raw_alice no_fault st0) as [H _]. symmetry. exact H.
Defined.

(** ** The handlers on the catalog of [main.py] *)

Example search_react :
  exists r,
    search_content "react" None env0 st0 = (Return r, st0) /\
    map sr_title (results r) =
      ["Movie Discovery App"; "Weather Forecast App"; "Currency Converter";
       "CRUD Task Manager"; "React JS"] /\
    map sr_type (results r) = ["project"; "project"; "project"; "project"; "skill"].
Proof. eexists. split; [vm_compute; reflexivity|]. split; reflexivity. Qed.

Example search_no_match :
  search_content "zzz-nomatch" (Some "Frontend") env0 st0
  = (Return (mkSearchResponse "zzz-nomatch" []), st0).
Proof. vm_compute. reflexivity. Qed.

Example skills_frontend :
  exists skills,
    get_skills (Some "frontend") env0 st0 = (Return skills, st0) /\
    map s_name skills =
      ["React JS"; "JavaScript"; "HTML"; "CSS"; "TypeScript"; "Tailwind CSS"].
Proof. eexists. split; [vm_compute; reflexivity | reflexivity]. Qed.

Example projects_featured :
  exists projects,
    get_projects (Some true) env0 st0 = (Return projects, st0) /\
    map p_id projects = ["1"; "2"].
Proof. eexists. split; [vm_compute; reflexivity | reflexivity]. Qed.

Example isoformat_round :
  ISO.isoformat (mkDatetime 2024 3 9 7 5 1 42) = "2024-03-09T07:05:01.000042" /\
  ISO.fromisoformat "2024-03-09T07:05:01.000042" = Some (mkDatetime 2024 3 9 7 5 1 42) /\
  ISO.isoformat (mkDatetime 2024 12 31 23 59 59 0) = "2024-12-31T23:59:59" /\
  ISO.fromisoformat "2024-02-30T07:05:01" = None.
Proof. vm_compute. repeat split. Qed.

Example contact_accepted :
  exists st',
    serve_contact raw_alice env0 st0
    = (Reply200 (mkContactResponse true thanks (Some (uuid_of 0))), st') /\
    messages_file st' =
      Stored (JList [message_data_of (uuid_of 0) alice "2025-01-15T10:30:00"]) /\
    smtp_trace st' = smtp_program /\
    map Subject (outbox st') = ["Portfolio Contact: Hello there"].
Proof. eexists. split; [vm_compute; reflexivity|]. repeat split. Qed.

Example contact_with_relay_down :
  exists st',
    serve_contact raw_alice (with_smtp_fault login_refused env0) st0
    = (Reply200 (mkContactResponse true thanks (Some (uuid_of 0))), st') /\
    smtp_trace st' = [Build; Connect; StartTLS; Login] /\
    outbox st' = [] /\
    logged st' = [(ERROR, "Failed to send email: 535 bad credentials")].
Proof. eexists. split; [vm_compute; reflexivity|]. repeat split. Qed.

(** * Further properties of the handlers *)

(** ** Creating projects *)

Lemma find_snoc {A} (f : A -> bool) (l : list A) (x : A) :
  find f (l ++ [x]) =
  match find f l with
  | Some y => Some y
  | None => if f x then Some x else None
  end.
Proof.
  induction l as [|a l IH]; simpl.
  - reflexivity.
  - destruct (f a); [reflexivity | exact IH].
Qed.

Lemma create_project_run {L : Library} (project : ProjectCreate) (env : Env) (st : State) :
  let new_project :=
    mkProject (uuid4 env (uuid_drawn st))
              (pc_title project) (pc_category project) (pc_description project)
              (pc_tech project) (pc_github project) (pc_demo project)
              (pc_featured project) in
  create_project project env st =
  (Return new_project,
   set_PROJECTS_DATA (PROJECTS_DATA st ++ [new_project])
     (set_clock_read (S (clock_read st)) (set_uuid_drawn (S (uuid_drawn st)) st))).
Proof. reflexivity. Qed.

Section CreateProject.
Context {L : Library}.

(** X1. [create_project] returns a project that copies the seven fields
    of its input under the identifier just drawn, and appends it after the
    projects already there; the record file is not touched. When no earlier
    project carries that identifier, looking it up afterwards gives the new
    project back, and identifiers that were unique stay unique. *)
Theorem create_then_get_project (project : ProjectCreate) (env : Env) (st : State) :
  (forall p, In p (PROJECTS_DATA st) -> p_id p <> uuid4 env (uuid_drawn st)) ->
  exists new_project st',
    create_project project env st = (Return new_project, st') /\
    p_id new_project = uuid4 env (uuid_drawn st) /\
    (p_title new_project, p_category new_project, p_description new_project,
     p_tech new_project, p_github new_project, p_demo new_project,
     p_featured new_project)
    = (pc_title project, pc_category project, pc_description project,
       pc_tech project, pc_github project, pc_demo project, pc_featured project) /\
    PROJECTS_DATA st' = PROJECTS_DATA st ++ [new_project] /\
    messages_file st' = messages_file st /\
    get_project (p_id new_project) env st' = (Return new_project, st') /\
    (NoDup (map p_id (PROJECTS_DATA st)) -> NoDup (map p_id (PROJECTS_DATA st'))).
Proof.
  intros Hfresh. do 2 eexists. rewrite create_project_run.
  split; [reflexivity|]. split; [reflexivity|]. split; [reflexivity|].
  split; [reflexivity|]. split; [reflexivity|]. split.
  - unfold get_project. run_py. cbn [PROJECTS_DATA set_PROJECTS_DATA p_id].
    rewrite find_snoc, find_absent.
    + cbn [p_id]. now rewrite String.eqb_refl.
    + intros p Hp. apply String.eqb_neq. now apply Hfresh.
  - intros Hnd. cbn [PROJECTS_DATA set_PROJECTS_DATA].
    rewrite map_app. cbn [map p_id].
    apply NoDup_app; [exact Hnd | repeat constructor; intros [] |].
    intros id Hin [<-|[]]. apply in_map_iff in Hin. destruct Hin as [p [Hid Hp]].
    exact (Hfresh p Hp Hid).
Qed.

(** X2. [create_project] never changes what an earlier lookup found: a
    project that [get_project] returned before is returned for the same
    identifier afterwards, even when the new project carries that
    identifier too; and any identifier other than the new one is answered
    as before, a 404 included. *)
Theorem create_project_keeps_lookups (project : ProjectCreate) (env : Env) (st : State) :
  exists new_project st',
    create_project project env st = (Return new_project, st') /\
    (forall id p, fst (get_project id env st) = Return p ->
                  fst (get_project id env st') = Return p) /\
    (forall id, id <> p_id new_project ->
                fst (get_project id env st') = fst (get_project id env st)).
Proof.
  do 2 eexists. rewrite create_project_run. split; [reflexivity|]. split.
  - intros id p. unfold get_project. run_py.
    cbn [PROJECTS_DATA set_PROJECTS_DATA]. rewrite find_snoc.
    destruct (find _ (PROJECTS_DATA st)); cbn [fst]; [tauto | discriminate].
  - intros id Hid. unfold get_project. run_py.
    cbn [PROJECTS_DATA set_PROJECTS_DATA]. rewrite find_snoc.
    destruct (find _ (PROJECTS_DATA st)); [reflexivity|].
    cbn [p_id] in *. apply not_eq_sym in Hid. apply String.eqb_neq in Hid.
    now rewrite Hid.
Qed.

End CreateProject.

Lemma create_then_get_project_witness :
  exists new_project st',
    create_project (mkProjectCreate "Blog" "Writing" "A blog." ["Hugo"] "g" "d" true)
                   env0 st0 = (Return new_project, st') /\
    get_project (uuid_of 0) env0 st' = (Return new_project, st').
Proof.
  assert (Hfresh : forall p, In p (PROJECTS_DATA st0) ->
                             p_id p <> uuid4 env0 (uuid_drawn st0)).
  { intros p Hp. simpl in Hp.
    repeat (destruct Hp as [<-|Hp]; [discriminate|]). destruct Hp. }
  destruct (create_then_get_project
              (mkProjectCreate "Blog" "Writing" "A blog." ["Hugo"] "g" "d" true)
              env0 st0 Hfresh)
    as [np [st' [Hrun [Hid [_ [_ [_ [Hget _]]]]]]]].
  exists np, st'. split; [exact Hrun|]. rewrite Hid in Hget. exact Hget.
Defined.

Lemma create_project_keeps_lookups_witness :
  exists new_project st',
    create_project (mkProjectCreate "Blog" "Writing" "A blog." ["Hugo"] "g" "d" true)
                   env0 st0 = (Return new_project, st') /\
    fst (get_project "3" env0 st') = fst (get_project "3" env0 st0).
Proof.
  destruct (create_project_keeps_lookups
              (mkProjectCreate "Blog" "Writing" "A blog." ["Hugo"] "g" "d" true)
              env0 st0) as [np [st' [Hrun [_ Hother]]]].
  exists np, st'. split; [exact Hrun|].
  apply Hother. rewrite create_project_run in Hrun.
  injection Hrun as <- _. discriminate.
Defined.

(** ** Searching and filtering, continued *)

Lemma string_app_assoc (a b c : string) :
  ((a ++ b) ++ c = a ++ (b ++ c))%string.
Proof. induction a as [|x a IH]; simpl; [reflexivity | now rewrite IH]. Qed.

Lemma str_in_trans (a b c : string) :
  str_in a b = true -> str_in b c = true -> str_in a c = true.
Proof.
  rewrite !str_in_iff. intros [p1 [q1 ->]] [p2 [q2 ->]].
  exists (p2 ++ p1)%string, (q1 ++ q2)%string.
  now rewrite !string_app_assoc.
Qed.

Lemma filter_refine {A} (f g : A -> bool) (l : list A) :
  (forall x, g x = true -> f x = true) ->
  filter g l = filter g (filter f l).
Proof.
  intros H. induction l as [|x l IH]; simpl; [reflexivity|].
  destruct (g x) eqn:G.
  - rewrite (H x G). simpl. rewrite G. now f_equal.
  - destruct (f x); simpl; [rewrite G|]; exact IH.
Qed.

Lemma filter_shorter {A} (f : A -> bool) (l : list A) :
  length (filter f l) <= length l.
Proof.
  induction l as [|x l IH]; simpl; [lia|]. destruct (f x); simpl; lia.
Qed.

Lemma filter_split_perm {A} (f : A -> bool) (l : list A) :
  Permutation (filter f l ++ filter (fun x => negb (f x)) l) l.
Proof.
  induction l as [|x l IH]; simpl; [constructor|].
  destruct (f x); simpl.
  - now constructor.
  - apply Permutation_sym, Permutation_cons_app, Permutation_sym, IH.
Qed.

Section SearchMore.
Context {L : Library}.

Lemma hit_narrows (q1 q2 s : string) :
  ci_substring q1 q2 ->
  str_in (lower q2) (lower s) = true -> str_in (lower q1) (lower s) = true.
Proof.
  intros H. apply str_in_trans. now apply ci_substring_iff.
Qed.

Lemma project_hit_narrows (q1 q2 : string) (p : Project) :
  ci_substring q1 q2 -> project_hit q2 p = true -> project_hit q1 p = true.
Proof.
  intros H. unfold project_hit. rewrite !orb_true_iff, !existsb_exists.
  intros [[H2|H2]|[t [Hin H2]]]; eauto using hit_narrows.
Qed.

(** X3. Lengthening a query can only narrow the search: when [q1] is a
    case-insensitive substring of [q2], the results for [q2] are the results
    for [q1] filtered once more by [q2], in the same order, so each of them
    is among the results for [q1] and there are no more of them. *)
Theorem search_narrows (q1 q2 : string) (category1 category2 : option string)
        (env : Env) (st : State) :
  ci_substring q1 q2 ->
  exists r1 r2,
    search_content q1 category1 env st = (Return r1, st) /\
    search_content q2 category2 env st = (Return r2, st) /\
    results r2 =
      map project_result
          (filter (project_hit q2) (filter (project_hit q1) (PROJECTS_DATA st))) ++
      map skill_result
          (filter (skill_hit q2) (filter (skill_hit q1) (SKILLS_DATA env))) /\
    incl (results r2) (results r1) /\
    length (results r2) <= length (results r1).
Proof.
  intros Hsub. do 2 eexists. rewrite !search_content_run.
  split; [reflexivity|]. split; [reflexivity|]. cbn [results].
  assert (Ep : filter (project_hit q2) (PROJECTS_DATA st)
               = filter (project_hit q2) (filter (project_hit q1) (PROJECTS_DATA st))).
  { apply filter_refine. intros p. now apply project_hit_narrows. }
  assert (Es : filter (skill_hit q2) (SKILLS_DATA env)
               = filter (skill_hit q2) (filter (skill_hit q1) (SKILLS_DATA env))).
  { apply filter_refine. intros s. now apply hit_narrows. }
  rewrite Ep, Es. split; [reflexivity|]. split.
  - intros x Hx. apply in_app_or in Hx. apply in_or_app.
    destruct Hx as [Hx|Hx]; [left|right];
      apply in_map_iff in Hx; destruct Hx as [y [<- Hy]];
      apply in_map; apply filter_In in Hy; tauto.
  - rewrite !length_app, !length_map.
    pose proof (filter_shorter (project_hit q2) (filter (project_hit q1) (PROJECTS_DATA st))).
    pose proof (filter_shorter (skill_hit q2) (filter (skill_hit q1) (SKILLS_DATA env))).
    lia.
Qed.

(** X4. The search and the two string filters see their argument only
    through its lower-cased form: two queries that differ in case only give
    the same results, and two non-empty categories or types that differ in
    case only select the same records. *)
Theorem queries_case_insensitive (a b : string) (category : option string)
        (env : Env) (st : State) :
  ci_equal a b -> a <> "" -> b <> "" ->
  (exists ra rb,
      search_content a category env st = (Return ra, st) /\
      search_content b category env st = (Return rb, st) /\
      results ra = results rb) /\
  get_skills (Some a) env st = get_skills (Some b) env st /\
  get_experiences (Some a) env st = get_experiences (Some b) env st.
Proof.
  unfold ci_equal. intros Heq Ha Hb.
  apply truthy_iff in Ha. apply truthy_iff in Hb. split; [|split].
  - do 2 eexists. rewrite !search_content_run.
    split; [reflexivity|]. split; [reflexivity|]. cbn [results].
    unfold project_hit, skill_hit. now rewrite Heq.
  - unfold get_skills. run_py. now rewrite Ha, Hb, Heq.
  - unfold get_experiences. run_py. now rewrite Ha, Hb, Heq.
Qed.

(** X5. The URL of a project result never dangles: every project the
    search lists is found by [get_project] under the identifier its URL
    ends with, and with unique identifiers the project found is the one
    listed; every result of type [project] comes from such a project. *)
Theorem search_results_resolve (q : string) (category : option string)
        (env : Env) (st : State) :
  exists r,
    search_content q category env st = (Return r, st) /\
    (forall p, In p (PROJECTS_DATA st) -> project_hit q p = true ->
       In (project_result p) (results r) /\
       sr_url (project_result p) = ("/api/projects/" ++ p_id p)%string /\
       exists found,
         get_project (p_id p) env st = (Return found, st) /\
         p_id found = p_id p /\
         (NoDup (map p_id (PROJECTS_DATA st)) -> found = p)) /\
    (forall x, In x (results r) -> sr_type x = "project" ->
       exists p, In p (PROJECTS_DATA st) /\ project_hit q p = true /\
                 x = project_result p).
Proof.
  eexists. rewrite search_content_run. split; [reflexivity|]. cbn [results]. split.
  - intros p Hin Hhit. split; [|split; [reflexivity|]].
    + apply in_or_app. left. apply in_map. apply filter_In. now split.
    + destruct (proj1 (find_by_id p_id (PROJECTS_DATA st) (p_id p)) p Hin eq_refl)
        as [found [before [after [Hf [Hid [_ [_ Huniq]]]]]]].
      exists found. split; [|split; assumption].
      unfold get_project. run_py. now rewrite Hf.
  - intros x Hx Htype. apply in_app_or in Hx. destruct Hx as [Hx|Hx];
      apply in_map_iff in Hx; destruct Hx as [y [<- Hy]].
    + apply filter_In in Hy. exists y. tauto.
    + discriminate Htype.
Qed.

(** X6. A category (or type) that no record carries, in any case, gives
    the empty list, not an error. *)
Theorem unknown_filter_value_empty (category type : string) (env : Env) (st : State) :
  category <> "" -> type <> "" ->
  (forall s, In s (SKILLS_DATA env) -> ~ ci_equal (s_category s) category) ->
  (forall e, In e (EXPERIENCES_DATA env) -> ~ ci_equal (e_type e) type) ->
  get_skills (Some category) env st = (Return [], st) /\
  get_experiences (Some type) env st = (Return [], st).
Proof.
  intros Hc Ht Hs He.
  apply truthy_iff in Hc. apply truthy_iff in Ht.
  unfold get_skills, get_experiences. run_py. rewrite Hc, Ht.
  assert (E1 : filter (fun s => String.eqb (lower (s_category s)) (lower category))
                      (SKILLS_DATA env) = []).
  { apply filter_nil_iff. intros s Hin. apply String.eqb_neq. now apply Hs. }
  assert (E2 : filter (fun e => String.eqb (lower (e_type e)) (lower type))
                      (EXPERIENCES_DATA env) = []).
  { apply filter_nil_iff. intros e Hin. apply String.eqb_neq. now apply He. }
  now rewrite E1, E2.
Qed.

(** X7. The featured and the non-featured projects split the catalog:
    together they are the whole collection, rearranged, and no project is
    in both lists. *)
Theorem featured_partition (env : Env) (st : State) :
  exists yes no all,
    get_projects (Some true) env st = (Return yes, st) /\
    get_projects (Some false) env st = (Return no, st) /\
    get_projects None env st = (Return all, st) /\
    Permutation (yes ++ no) all /\
    length yes + length no = length all /\
    (forall p, In p yes -> In p no -> False).
Proof.
  do 3 eexists. unfold get_projects. run_py.
  split; [reflexivity|]. split; [reflexivity|]. split; [reflexivity|].
  assert (P : Permutation
                (filter (fun p => Bool.eqb (p_featured p) true) (PROJECTS_DATA st) ++
                 filter (fun p => Bool.eqb (p_featured p) false) (PROJECTS_DATA st))
                (PROJECTS_DATA st)).
  { rewrite (filter_ext (fun p => Bool.eqb (p_featured p) false)
                        (fun p => negb (Bool.eqb (p_featured p) true))).
    - apply filter_split_perm.
    - intros p. now destruct (p_featured p). }
  split; [exact P|]. split.
  - apply Permutation_length in P. now rewrite length_app in P.
  - intros p Hy Hn. apply filter_In in Hy. apply filter_In in Hn.
    destruct Hy as [_ Hy], Hn as [_ Hn]. destruct (p_featured p); discriminate.
Qed.

End SearchMore.

Section Categories.
Context {L : Library} {O : SetOrder}.

(** X8. [get_skill_categories] lists every category some skill carries,
    each once, and nothing else; and each category it lists, given to
    [get_skills], selects a non-empty list that holds every skill of that
    category. *)
Theorem skill_categories_cover (env : Env) (st : State) :
  exists categories,
    get_skill_categories env st = (Return categories, st) /\
    NoDup categories /\
    (forall c, In c categories <->
               exists s, In s (SKILLS_DATA env) /\ s_category s = c) /\
    (forall c, In c categories ->
       exists skills,
         get_skills (Some c) env st = (Return skills, st) /\
         skills <> [] /\
         forall s, In s (SKILLS_DATA env) -> s_category s = c -> In s skills).
Proof.
  eexists. unfold get_skill_categories. run_py.
  split; [reflexivity|]. split; [apply list_set_NoDup|].
  assert (Hin : forall c, In c (list_set (map s_category (SKILLS_DATA env))) <->
                          exists s, In s (SKILLS_DATA env) /\ s_category s = c).
  { intros c. rewrite list_set_In, in_map_iff. split; intros [s [H1 H2]]; eauto. }
  split; [exact Hin|].
  intros c Hc. apply Hin in Hc. destruct Hc as [s0 [Hs0 Hcat0]].
  eexists. unfold get_skills. run_py. split; [reflexivity|].
  assert (Hall : forall s, In s (SKILLS_DATA env) -> s_category s = c ->
                 In s (if truthy c
                       then filter (fun s => String.eqb (lower (s_category s)) (lower c))
                                   (SKILLS_DATA env)
                       else SKILLS_DATA env)).
  { intros s Hs Hcat. destruct (truthy c); [|exact Hs].
    apply filter_In. split; [exact Hs|]. rewrite Hcat. apply String.eqb_refl. }
  split; [|exact Hall].
  intros Hnil. specialize (Hall s0 Hs0 Hcat0). rewrite Hnil in Hall. exact Hall.
Qed.

End Categories.

Lemma search_narrows_witness :
  ci_substring "React" "react js" /\
  exists r1 r2,
    search_content "React" None env0 st0 = (Return r1, st0) /\
    search_content "react js" None env0 st0 = (Return r2, st0) /\
    incl (results r2) (results r1).
Proof.
  assert (H : ci_substring "React" "react js") by (exists "", " js"; reflexivity).
  split; [exact H|].
  destruct (search_narrows "React" "react js" None None env0 st0 H)
    as [r1 [r2 [H1 [H2 [_ [Hincl _]]]]]].
  exists r1, r2. repeat split; assumption.
Defined.

Lemma queries_case_insensitive_witness :
  ci_equal "Frontend" "FRONTEND" /\
  get_skills (Some "Frontend") env0 st0 = get_skills (Some "FRONTEND") env0 st0.
Proof.
  assert (H : ci_equal "Frontend" "FRONTEND") by reflexivity.
  split; [exact H|].
  apply (queries_case_insensitive "Frontend" "FRONTEND" None env0 st0 H);
    discriminate.
Defined.

Lemma search_results_resolve_witness :
  exists r found,
    search_content "movie" None env0 st0 = (Return r, st0) /\
    get_project "2" env0 st0 = (Return found, st0) /\
    In (project_result found) (results r).
Proof.
  destruct (search_results_resolve "movie" None env0 st0) as [r [Hrun [Hp _]]].
  pose (p := nth 1 Fixture.PROJECTS_DATA (mkProject "" "" "" "" [] "" "" false)).
  assert (Hin : In p (PROJECTS_DATA st0)) by (simpl; tauto).
  destruct (Hp p Hin eq_refl) as [Hres [_ [found [Hget [_ Huniq]]]]].
  exists r, found. split; [exact Hrun|]. split; [exact Hget|].
  rewrite (Huniq ltac:(vm_compute; repeat constructor; simpl; intuition discriminate)).
  exact Hres.
Defined.

Lemma unknown_filter_value_empty_witness :
  get_skills (Some "Cloud") env0 st0 = (Return [], st0) /\
  get_experiences (Some "job") env0 st0 = (Return [], st0).
Proof.
  apply (unknown_filter_value_empty "Cloud" "job" env0 st0); try discriminate.
  - intros s Hin. unfold ci_equal. simpl in Hin.
    repeat (destruct Hin as [<-|Hin]; [vm_compute; discriminate|]). destruct Hin.
  - intros e Hin. unfold ci_equal. simpl in Hin.
    repeat (destruct Hin as [<-|Hin]; [vm_compute; discriminate|]). destruct Hin.
Defined.

Lemma skill_categories_cover_witness :
  exists categories skills,
    get_skill_categories env0 st0 = (Return categories, st0) /\
    In "Backend" categories /\
    get_skills (Some "Backend") env0 st0 = (Return skills, st0) /\
    skills <> [].
Proof.
  destruct (skill_categories_cover env0 st0) as [categories [Hrun [_ [Hin Hsel]]]].
  assert (Hb : In "Backend" categories).
  { apply Hin. exists (mkSkill "Python" 82 "Backend"). split; [simpl; tauto | reflexivity]. }
  destruct (Hsel "Backend" Hb) as [skills [Hget [Hne _]]].
  exists categories, skills. repeat split; assumption.
Defined.

Example skill_categories_on_catalog :
  get_skill_categories env0 st0
  = (Return ["Frontend"; "Backend"; "Database"; "Tools"], st0).
Proof. reflexivity. Qed.

(** ** Validation and the route *)

Section RouteMore.
Context {L : Library}.

(** X9. The validation of [ContactMessage] accepts a body exactly when
    the name has 2 to 100 characters, the subject 5 to 200, the message 10
    to 1000, and the e-mail address is well formed; the accepted message
    carries the three strings as they came and the address as normalised. *)
Theorem validation_accepts_iff (raw : RawContact) (contact : ContactMessage) :
  ContactMessage_validate raw = inl contact <->
  2 <= String.length (raw_name raw) <= 100 /\
  5 <= String.length (raw_subject raw) <= 200 /\
  10 <= String.length (raw_message raw) <= 1000 /\
  exists address,
    validate_email (raw_email raw) = Some address /\
    contact = mkContactMessage (raw_name raw) address (raw_subject raw) (raw_message raw).
Proof.
  rewrite <- !length_between_iff. unfold ContactMessage_validate.
  destruct (length_between 2 100 (raw_name raw));
    destruct (validate_email (raw_email raw)) as [address|];
    destruct (length_between 5 200 (raw_subject raw));
    destruct (length_between 10 1000 (raw_message raw));
    cbn [app]; split;
    try discriminate;
    try (intros [H1 [H2 [H3 [a [H4 H5]]]]]; discriminate).
  - intros [= <-]. repeat split. now exists address.
  - intros [_ [_ [_ [a [[= <-] ->]]]]]. reflexivity.
Qed.

(** X10. [submit_contact] never raises: whatever the file system does, it
    returns the success response and registers exactly one notification
    after the tasks it was given, so the handler of its [except] branch and
    its status 500 are never reached; a body that passes validation is
    always answered with status 200. *)
Theorem submit_contact_never_fails (contact : ContactMessage)
        (background_tasks : list Task) (env : Env) (st : State) :
  (exists message_id st',
      submit_contact contact background_tasks env st =
      (Return (mkContactResponse true thanks message_id,
               background_tasks ++ [Task_send_email contact]), st')) /\
  (forall raw, ContactMessage_validate raw = inl contact ->
     exists message_id st',
       post_api_contact raw env st =
       (Reply200 (mkContactResponse true thanks message_id),
        [Task_send_email contact], st')).
Proof.
  destruct (save_contact_message_returns contact env st) as [message_id [st' H]].
  split.
  - exists message_id, st'. now apply submit_contact_run.
  - intros raw Hv. exists message_id, st'. unfold post_api_contact. rewrite Hv.
    now rewrite (submit_contact_run contact [] env st message_id st' H).
Qed.

End RouteMore.

Lemma validation_accepts_iff_witness :
  ContactMessage_validate raw_alice = inl alice.
Proof.
  apply (validation_accepts_iff raw_alice alice).
  simpl. repeat split; try lia. now exists "alice@example.com".
Defined.

Lemma submit_contact_never_fails_witness :
  exists message_id st',
    post_api_contact raw_alice (with_smtp_fault login_refused env0) st_corrupt =
    (Reply200 (mkContactResponse true thanks message_id), [Task_send_email alice], st').
Proof.
  apply (submit_contact_never_fails alice [] (with_smtp_fault login_refused env0) st_corrupt).
  reflexivity.
Defined.

(** ** The notifier, continued *)

Lemma str_in_here (x s : string) : str_in x (x ++ s) = true.
Proof. apply str_in_iff. now exists "", s. Qed.

Lemma str_in_later (x p s : string) :
  str_in x s = true -> str_in x (p ++ s) = true.
Proof.
  rewrite !str_in_iff. intros [before [after ->]].
  exists (p ++ before)%string, after. now rewrite string_app_assoc.
Qed.

(** Looking for a field down the concatenation that makes the body. *)
Ltac find_in_body :=
  repeat first [ apply str_in_here | apply str_in_later ].

(** A call before [quit] fails: [False] is returned and nothing has gone
    out. *)
Ltac early_fault F step :=
  do 2 eexists; split; [reflexivity|];
  split; [split; [discriminate | intros H; rewrite H in F; discriminate]|];
  split; [intros H; rewrite (H step) in F by discriminate; discriminate|];
  split; [intros _; reflexivity|];
  intros H; rewrite H in F; discriminate.

Section NotifierMore.
Context {L : Library}.

(** The message is handed over once [send_message] has returned, and
    [send_email] reports [True] only after [quit] has returned too. *)
Lemma send_email_run (contact_data : ContactMessage) (env : Env) (st : State) :
  exists ok st',
    send_email contact_data env st = (Return ok, st') /\
    (ok = true <-> forall s, smtp_fault env s = None) /\
    ((forall s, s <> Quit -> smtp_fault env s = None) ->
     outbox st' = outbox st ++ [notification env contact_data]) /\
    ((exists s, s <> Quit /\ smtp_fault env s <> None) -> outbox st' = outbox st) /\
    ((forall s, smtp_fault env s = None) ->
     smtp_trace st' = smtp_trace st ++ smtp_program /\
     logged st' = logged st ++
       [(INFO, ("Email sent successfully for contact from " ++ name contact_data)%string)]).
Proof.
  unfold send_email, send_email_try. run_py.
  destruct (smtp_fault env Build) eqn:F0; run_py; [early_fault F0 Build|].
  destruct (smtp_fault env Connect) eqn:F1; run_py; [early_fault F1 Connect|].
  destruct (smtp_fault env StartTLS) eqn:F2; run_py; [early_fault F2 StartTLS|].
  destruct (smtp_fault env Login) eqn:F3; run_py; [early_fault F3 Login|].
  destruct (smtp_fault env Send) eqn:F4; run_py; [early_fault F4 Send|].
  destruct (smtp_fault env Quit) eqn:F5; run_py.
  - do 2 eexists. split; [reflexivity|]. split; [|split; [|split]].
    + split; [discriminate | intros H; rewrite H in F5; discriminate].
    + intros _. reflexivity.
    + intros [s [Hs Hf]]. exfalso. destruct s; congruence.
    + intros H. rewrite H in F5. discriminate.
  - do 2 eexists. split; [reflexivity|]. split; [|split; [|split]].
    + split; [intros _ s; destruct s; assumption | reflexivity].
    + intros _. reflexivity.
    + intros [s [Hs Hf]]. exfalso. destruct s; congruence.
    + intros _. split; cbn; rewrite <- ?app_assoc; reflexivity.
Qed.

(** X11. When no call on the relay fails, [send_email] returns [True]
    after making each call of its program once, in order; exactly one
    message is handed over, from the configured account to the address of
    [PERSONAL_INFO], whose subject line ends with the subject of the
    submission and whose body contains its name, address, subject and
    message. *)
Theorem send_email_delivers (contact_data : ContactMessage) (env : Env) (st : State) :
  (forall s, smtp_fault env s = None) ->
  exists st',
    send_email contact_data env st = (Return true, st') /\
    smtp_trace st' = smtp_trace st ++ smtp_program /\
    outbox st' = outbox st ++ [notification env contact_data] /\
    From (notification env contact_data) = EMAIL_CONFIG_email env /\
    To (notification env contact_data) = PERSONAL_INFO_email env /\
    Subject (notification env contact_data)
      = ("Portfolio Contact: " ++ subject contact_data)%string /\
    str_in (name contact_data) (body (notification env contact_data)) = true /\
    str_in (email contact_data) (body (notification env contact_data)) = true /\
    str_in (subject contact_data) (body (notification env contact_data)) = true /\
    str_in (message contact_data) (body (notification env contact_data)) = true.
Proof.
  intros Hok.
  destruct (send_email_run contact_data env st)
    as [ok [st' [Hrun [Hiff [Hout [_ Htrace]]]]]].
  exists st'. apply Hiff in Hok as Htrue. subst ok.
  split; [exact Hrun|]. split; [apply Htrace, Hok|].
  split; [apply Hout; intros s _; apply Hok|].
  split; [reflexivity|]. split; [reflexivity|]. split; [reflexivity|].
  cbn [body notification]. unfold email_body.
  repeat split; find_in_body.
Qed.

(** X12. What [send_email] reports and what it did can differ: the
    message is handed over as soon as every call before [quit] succeeds,
    but [True] is reported only if [quit] succeeds too; so when [quit]
    alone fails, the message has gone out and [False] is returned. A failing
    call before [quit] leaves the outbox as it was. *)
Theorem send_email_report_and_delivery (contact_data : ContactMessage)
        (env : Env) (st : State) :
  exists ok st',
    send_email contact_data env st = (Return ok, st') /\
    (ok = true <-> forall s, smtp_fault env s = None) /\
    ((forall s, s <> Quit -> smtp_fault env s = None) ->
     outbox st' = outbox st ++ [notification env contact_data]) /\
    ((exists s, s <> Quit /\ smtp_fault env s <> None) -> outbox st' = outbox st) /\
    ((forall s, s <> Quit -> smtp_fault env s = None) ->
     smtp_fault env Quit <> None ->
     ok = false /\ outbox st' = outbox st ++ [notification env contact_data]).
Proof.
  destruct (send_email_run contact_data env st)
    as [ok [st' [Hrun [Hiff [Hout [Hkeep _]]]]]].
  exists ok, st'. split; [exact Hrun|]. split; [exact Hiff|].
  split; [exact Hout|]. split; [exact Hkeep|].
  intros Hfive Hquit. split; [|now apply Hout].
  destruct ok; [|reflexivity].
  exfalso. apply Hquit. now apply Hiff.
Qed.

End NotifierMore.

Lemma send_email_delivers_witness :
  exists st',
    send_email alice env0 st0 = (Return true, st') /\
    outbox st' = [notification env0 alice].
Proof.
  destruct (send_email_delivers alice env0 st0 (fun s => eq_refl))
    as [st' [Hrun [_ [Hout _]]]].
  exists st'. split; [exact Hrun | exact Hout].
Defined.

(** A relay that takes the message and then fails to close. *)
Lemma send_email_report_and_delivery_witness :
  let quit_fails := fun s => match s with
                             | Quit => Some (PyError "SMTPServerDisconnected" "closed")
                             | _ => None
                             end in
  exists st',
    send_email alice (with_smtp_fault quit_fails env0) st0 = (Return false, st') /\
    outbox st' = [notification env0 alice].
Proof.
  intros quit_fails.
  destruct (send_email_report_and_delivery alice (with_smtp_fault quit_fails env0) st0)
    as [ok [st' [Hrun [_ [_ [_ Hquit]]]]]].
  destruct Hquit as [Hok Hout].
  - intros s Hs. destruct s; try reflexivity. now destruct Hs.
  - discriminate.
  - exists st'. subst ok. split; [exact Hrun | exact Hout].
Defined.

(** ** The record store, continued *)

Section StoreMore.
Context {L : Library}.

(** [save_contact_message] keeps its hands off the catalog and the mail. *)
Lemma save_contact_message_frame (contact_data : ContactMessage)
      (env : Env) (st : State) :
  exists message_id st',
    save_contact_message contact_data env st = (Return message_id, st') /\
    outbox st' = outbox st /\ smtp_trace st' = smtp_trace st /\
    PROJECTS_DATA st' = PROJECTS_DATA st.
Proof.
  rewrite save_contact_message_run. unfold save_contact_message_try. run_py.
  destruct (messages_file st) as [| |j] eqn:E; run_py.
  - destruct (open_write_fault env); [|destruct (dump_fault env)];
      do 2 eexists; (split; [reflexivity|]); repeat split.
  - destruct (open_read_fault env); rewrite ?E; do 2 eexists; (split; [reflexivity|]); repeat split.
  - destruct (open_read_fault env); rewrite ?E; run_py;
      [do 2 eexists; (split; [reflexivity|]); repeat split|].
    destruct j; run_py; try (do 2 eexists; (split; [reflexivity|]); repeat split).
    destruct (open_write_fault env); [|destruct (dump_fault env)];
      do 2 eexists; (split; [reflexivity|]); repeat split.
Qed.

(** Submissions against a file that cannot be read. *)
Lemma save_each_unreadable (submissions : list ContactMessage) (env : Env) (st : State) :
  messages_file st = Corrupt \/
  (messages_file st <> NoFile /\ open_read_fault env <> None) ->
  exists st',
    save_each submissions env st = (Return (repeat None (length submissions)), st') /\
    messages_file st' = messages_file st /\
    uuid_drawn st' = uuid_drawn st.
Proof.
  revert st. induction submissions as [|c rest IH]; intros st H.
  - exists st. repeat split.
  - destruct (save_try_unreadable c env st H) as [e He].
    assert (Hsave : save_contact_message c env st = (Return None, save_failed e st)).
    { now rewrite save_contact_message_run, He. }
    destruct (IH (save_failed e st) H) as [st' [Hrest [Hfile Hid]]].
    exists st'. cbn [save_each length repeat]. unfold bind at 1. rewrite Hsave.
    unfold bind at 1. rewrite Hrest. repeat split; assumption.
Qed.

Lemma prior_list_cases (f : File) (prior : list json) :
  prior_list f = Some prior ->
  (f = NoFile /\ prior = []) \/ f = Stored (JList prior).
Proof.
  destruct f as [| |j]; simpl; try discriminate.
  - intros [= <-]. now left.
  - destruct j; try discriminate. intros [= <-]. now right.
Qed.

Lemma records_from_length (env : Env) (n m : nat) (submissions : list ContactMessage) :
  length (records_from env n m submissions) = length submissions.
Proof.
  revert n m. induction submissions as [|c rest IH]; intros n m; simpl;
    [reflexivity | now rewrite IH].
Qed.

(** X13. Once the record file holds text that is no JSON document, or
    cannot be opened for reading, no submission is stored any more:
    every later call of [save_contact_message] returns [None], draws no
    identifier and leaves the file as it is. *)
Theorem unreadable_store_stays (submissions : list ContactMessage)
        (env : Env) (st : State) :
  messages_file st = Corrupt \/
  (messages_file st <> NoFile /\ open_read_fault env <> None) ->
  exists st',
    save_each submissions env st = (Return (repeat None (length submissions)), st') /\
    messages_file st' = messages_file st /\
    uuid_drawn st' = uuid_drawn st.
Proof. intros H. now apply save_each_unreadable. Qed.

(** X14. Submissions stored one after another, on a file system that
    does not fail: the calls return the identifiers drawn, in order, and
    the store ends as the records it began with followed by one record for
    each submission, in the order of the calls, so that its length has grown
    by the number of submissions. *)
Theorem successive_appends (submissions : list ContactMessage)
        (env : Env) (st : State) (prior : list json) :
  prior_list (messages_file st) = Some prior ->
  open_read_fault env = None -> open_write_fault env = None ->
  dump_fault env = None ->
  exists st' stored,
    save_each submissions env st =
      (Return (map (fun i => Some (uuid4 env i))
                   (seq (uuid_drawn st) (length submissions))), st') /\
    prior_list (messages_file st') = Some stored /\
    stored = prior ++ records_from env (uuid_drawn st) (clock_read st) submissions /\
    length stored = length prior + length submissions /\
    uuid_drawn st' = uuid_drawn st + length submissions.
Proof.
  intros Hprior Hr Hw Hd.
  revert st prior Hprior. induction submissions as [|c rest IH]; intros st prior Hprior.
  - exists st, prior. cbn. rewrite app_nil_r. repeat split; try assumption; lia.
  - pose proof (save_try_appends c env st prior (prior_list_cases _ _ Hprior) Hr Hw Hd)
      as Htry. cbv zeta in Htry.
    match type of Htry with _ = (_, ?s) => set (st1 := s) in * end.
    assert (Hsave : save_contact_message c env st
                    = (Return (Some (uuid4 env (uuid_drawn st))), st1)).
    { now rewrite save_contact_message_run, Htry. }
    destruct (IH st1 _ eq_refl) as [st' [stored [Hrest [Hfile [Hstored [Hlen Hid]]]]]].
    exists st', stored. cbn [save_each length seq map records_from].
    unfold bind at 1. rewrite Hsave. unfold bind at 1.
    change (uuid_drawn st1) with (S (uuid_drawn st)) in *.
    change (clock_read st1) with (S (clock_read st)) in *.
    rewrite Hrest. split; [reflexivity|]. split; [exact Hfile|].
    split; [now rewrite Hstored, <- app_assoc|].
    split; [|lia].
    rewrite Hstored, !length_app, records_from_length. simpl. lia.
Qed.

(** X15. A [json.dump] that fails after the file was opened for writing
    costs the whole store: [save_contact_message] returns [None], the
    records stored before are gone with the emptied file, and no later
    submission is stored, whatever the file system does from then on. *)
Theorem dump_failure_destroys_store (contact_data : ContactMessage)
        (env : Env) (st : State) (prior : list json) (e : exn) :
  prior_list (messages_file st) = Some prior ->
  open_read_fault env = None -> open_write_fault env = None ->
  dump_fault env = Some e ->
  exists st',
    save_contact_message contact_data env st = (Return None, st') /\
    messages_file st' = Corrupt /\
    prior_list (messages_file st') = None /\
    forall later env',
      exists st'',
        save_each later env' st' = (Return (repeat None (length later)), st'') /\
        messages_file st'' = Corrupt.
Proof.
  intros Hprior Hr Hw Hd.
  destruct (proj2 (save_try_write_failure contact_data env st prior
                     (prior_list_cases _ _ Hprior) Hr) e Hw Hd)
    as [st1 [Htry Hfile]].
  exists (save_failed e st1). rewrite save_contact_message_run, Htry.
  split; [reflexivity|].
  assert (Hc : messages_file (save_failed e st1) = Corrupt) by exact Hfile.
  split; [exact Hc|]. split; [now rewrite Hc|].
  intros later env'.
  destruct (save_each_unreadable later env' (save_failed e st1) (or_introl Hc))
    as [st'' [Hrun [Hsame _]]].
  exists st''. split; [exact Hrun | congruence].
Qed.



End StoreMore.

Lemma unreadable_store_stays_witness :
  exists st',
    save_each [alice; alice] env0 st_corrupt = (Return [None; None], st') /\
    messages_file st' = Corrupt.
Proof.
  destruct (unreadable_store_stays [alice; alice] env0 st_corrupt (or_introl eq_refl))
    as [st' [Hrun [Hfile _]]].
  exists st'. split; [exact Hrun | exact Hfile].
Defined.

Lemma successive_appends_witness :
  exists st',
    save_each [alice; alice] env0 st_one
    = (Return [Some (uuid_of 1); Some (uuid_of 2)], st') /\
    prior_list (messages_file st') = Some ([bob] ++ records_from env0 1 1 [alice; alice]).
Proof.
  destruct (successive_appends [alice; alice] env0 st_one [bob]
              eq_refl eq_refl eq_refl eq_refl)
    as [st' [stored [Hrun [Hfile [Hstored _]]]]].
  exists st'. split; [exact Hrun|]. rewrite Hfile, Hstored. reflexivity.
Defined.

Lemma dump_failure_destroys_store_witness :
  let env := mkEnv Fixture.SKILLS_DATA Fixture.EXPERIENCES_DATA
                   Fixture.PERSONAL_INFO_email "your-email@gmail.com"
                   "your-app-password" uuid_of clock_of None None
                   (Some (PyError "OSError" "No space left on device")) no_fault in
  exists st',
    save_contact_message alice env st_one = (Return None, st') /\
    messages_file st' = Corrupt /\
    exists st'',
      save_each [alice] env0 st' = (Return [None], st'') /\
      messages_file st'' = Corrupt.
Proof.
  intros env.
  destruct (dump_failure_destroys_store alice env st_one [bob]
              (PyError "OSError" "No space left on device")
              eq_refl eq_refl eq_refl eq_refl)
    as [st' [Hrun [Hfile [_ Hlater]]]].
  exists st'. split; [exact Hrun|]. split; [exact Hfile|].
  exact (Hlater [alice] env0).
Defined.


